(** * BTC paper trader: the price feed handler and the ledger engine of [main.py]

    The program keeps its money in Python [float]s, which are IEEE 754
    binary64 numbers; they are modelled by Rocq's primitive [float], whose
    operations are the same binary64 operations (round to nearest, ties to
    even).  Library calls that are not part of the program ([json.loads],
    [float] applied to a [str]) are parameters of the development.

    A method of [BitcoinPaperTrader] is a function from the state of the
    object (and of its two files) to how the call ends, the state it leaves
    and the lines it prints.  What the call reads from outside (the price
    cell, the clock, the keyboard) is an argument.  The two threads of the
    program are not modelled: a call sees one value of the price cell, which
    is what [get_current_btc_price] returns under [price_lock].

    The constructor and the two loaders read values out of the files
    without checking their types; they are modelled apart, in [Startup], on
    objects whose attributes hold decoded JSON values, and related to the
    trading methods through the documents that [save_data] and
    [save_history] write. *)

From Stdlib Require Import ZArith QArith Qabs Qpower List String Ascii Bool Lia Lqa.
From Stdlib Require Import Floats.
Import ListNotations.

Close Scope Q_scope.

Set Implicit Arguments.
Set Warnings "-register-all".
(* A decimal literal denotes the nearest binary64 number, as in Python. *)
Set Warnings "-inexact-float".

(** ** Python values and exceptions *)

(** The exception classes that the modelled code can raise.
    [json.JSONDecodeError] is a subclass of [ValueError] and is caught as one,
    so it is represented by [ValueError]. *)
Inductive exn : Type :=
  | KeyError
  | ValueError
  | IndexError
  | TypeError
  | ZeroDivisionError
  | OverflowError.

(** How the evaluation of an expression or a call ends. *)
Inductive completion (A : Type) : Type :=
  | Normal (a : A)
  | Raised (e : exn).

Arguments Normal {A} a.
Arguments Raised {A} e.

Module PyFloat.

Local Open Scope float_scope.

(** [a / b] on two floats: Python raises [ZeroDivisionError] when the
    divisor compares equal to zero (either sign) and otherwise returns the
    binary64 quotient, infinities and NaN included. *)
Definition truediv (a b : float) : completion float :=
  if b =? 0 then Raised ZeroDivisionError else Normal (a / b).

(** [float(n)] for a Python [int]: the nearest binary64 number, ties to
    even; [OverflowError] when that is out of range. *)
Definition of_int (n : Z) : completion float :=
  let f := SF2Prim (binary_normalize prec emax n 0 false) in
  if is_infinity f then Raised OverflowError else Normal f.

(** [x >= 0], written with the primitive comparison. *)
Definition nonneg (x : float) : bool := 0 <=? x.

End PyFloat.

(** ** The ledger *)

Inductive txn_type : Type := buy | sell.

(** One entry of [transaction_history]; the keys of the Python dict. *)
Record transaction : Type := {
  txn_id : string;          (* 'id' *)
  txn_kind : txn_type;      (* 'type' *)
  amount_usd : float;
  btc : float;
  price_per_btc : float;
  timestamp : string
}.

(** The content of [trader_data.json] as [save_data] writes it. *)
Record saved_data : Type := {
  saved_cash_balance : float;
  saved_btc_balance : float;
  saved_starting_total : float
}.

(** A [BitcoinPaperTrader] object together with the two files it owns:
    [data_file] and [history_file] stand for the decoded content of the files
    at these paths ([None]: no such file). *)
Record trader : Type := {
  starting_cash : float;
  starting_total : float;
  cash_balance : float;
  btc_balance : float;
  transaction_history : list transaction;
  data_file : option saved_data;
  history_file : option (list transaction)
}.

Definition set_cash_balance (v : float) (t : trader) : trader :=
  {| starting_cash := starting_cash t; starting_total := starting_total t;
     cash_balance := v; btc_balance := btc_balance t;
     transaction_history := transaction_history t;
     data_file := data_file t; history_file := history_file t |}.

Definition set_btc_balance (v : float) (t : trader) : trader :=
  {| starting_cash := starting_cash t; starting_total := starting_total t;
     cash_balance := cash_balance t; btc_balance := v;
     transaction_history := transaction_history t;
     data_file := data_file t; history_file := history_file t |}.

Definition set_transaction_history (v : list transaction) (t : trader) : trader :=
  {| starting_cash := starting_cash t; starting_total := starting_total t;
     cash_balance := cash_balance t; btc_balance := btc_balance t;
     transaction_history := v;
     data_file := data_file t; history_file := history_file t |}.

Definition set_data_file (v : option saved_data) (t : trader) : trader :=
  {| starting_cash := starting_cash t; starting_total := starting_total t;
     cash_balance := cash_balance t; btc_balance := btc_balance t;
     transaction_history := transaction_history t;
     data_file := v; history_file := history_file t |}.

Definition set_history_file (v : option (list transaction)) (t : trader) : trader :=
  {| starting_cash := starting_cash t; starting_total := starting_total t;
     cash_balance := cash_balance t; btc_balance := btc_balance t;
     transaction_history := transaction_history t;
     data_file := data_file t; history_file := v |}.

(** What a method call finds around it: the price cell that the feed thread
    writes, the values [uuid.uuid4()] and [datetime.utcnow()] would give, and
    whether opening each file for writing succeeds ([false]: [IOError]). *)
Record env : Type := {
  latest_btc_price : option float;
  uuid4 : string;
  utcnow : string;
  data_file_writable : bool;
  history_file_writable : bool
}.

Definition get_current_btc_price (e : env) : option float := latest_btc_price e.

(** The lines a method prints; each constructor is one [print] of the source.
    The spec's error kinds name the corresponding messages. *)
Inductive message : Type :=
  | InvalidAmount        (* "Amount must be greater than 0." *)
  | InsufficientCash     (* "Insufficient cash balance." *)
  | PriceUnavailable     (* "Cannot fetch Bitcoin price at the moment." *)
  | NothingToSell        (* "No Bitcoin to sell." *)
  | InsufficientAsset    (* "Insufficient Bitcoin balance." *)
  | InvalidInput         (* "Invalid input. Please enter a numerical value." *)
  | InvalidSelection     (* "Invalid selection. Please choose 1 or 2." *)
  | Bought (btc_bought price amount : float)
  | SoldAll (btc_to_sell price amount : float)
  | Sold (btc_to_sell price amount : float)
  | ErrorSavingData      (* "Error saving data: ..." *)
  | ErrorSavingHistory   (* "Error saving transaction history: ..." *)
  | Valuation (current_price cash btc_held current_total pl pl_percent : float)
  | NoTransactions       (* "No transactions have been made yet." *)
  | HistoryTable (rows : list transaction)
  | ResetDone            (* "All balances and transaction history have been reset." *)
  | ResetCancelled        (* "Reset cancelled." *)
  | CashBalance (cash : float)
  | BitcoinBalance (usd_value held price : float)
  | InvalidMenuSelection  (* "Invalid selection. Please choose a number between 1 and 8." *)
  | Goodbye               (* the farewell of option 8 *)
  | ErrorParsingMessage (e : exn).  (* "Error parsing message: ..." *)

(** ** Methods as state transformers that may raise and that print *)

Definition M (S A : Type) : Type := S -> completion A * S * list message.

Section Monad.

Context {S : Type}.

Definition ret {A} (a : A) : M S A := fun s => (Normal a, s, []).

Definition bind {A B} (c : M S A) (k : A -> M S B) : M S B := fun s =>
  match c s with
  | (Normal a, s1, out1) =>
      let '(r, s2, out2) := k a s1 in (r, s2, out1 ++ out2)
  | (Raised e, s1, out1) => (Raised e, s1, out1)
  end.

Definition raise {A} (e : exn) : M S A := fun s => (Raised e, s, []).

(** An expression that reads no state. *)
Definition lift {A} (c : completion A) : M S A := fun s => (c, s, []).

Definition print (m : message) : M S unit := fun s => (Normal tt, s, [m]).

(** Reading an attribute, and assigning to one. *)
Definition attr {A} (f : S -> A) : M S A := fun s => (Normal (f s), s, []).

Definition assign (f : S -> S) : M S unit := fun s => (Normal tt, f s, []).

(** [try: body except <classes> as e: handler]: an exception of one of the
    listed classes ends the body and runs the handler on the state reached;
    any other exception propagates. *)
Definition try_except {A} (body : M S A) (caught : exn -> bool)
    (handler : exn -> M S A) : M S A :=
  fun s =>
    match body s with
    | (Raised e, s1, out1) =>
        if caught e
        then let '(r, s2, out2) := handler e s1 in (r, s2, out1 ++ out2)
        else (Raised e, s1, out1)
    | normal => normal
    end.

End Monad.

Notation "x <- c ;; k" := (bind c (fun x => k))
  (at level 61, c at next level, right associativity).
Notation "c ;;; k" := (bind c (fun _ => k))
  (at level 61, right associativity).

Definition is_ValueError (e : exn) : bool :=
  match e with ValueError => true | _ => false end.

(** ** Persistence *)

(** The dict that [save_data] dumps. *)
Definition snapshot (t : trader) : saved_data :=
  {| saved_cash_balance := cash_balance t;
     saved_btc_balance := btc_balance t;
     saved_starting_total := starting_total t |}.

(** [save_data] and [save_history]: a failed write is reported and changes
    nothing (the [IOError] is caught). *)
Definition save_data (e : env) : M trader unit :=
  data <- attr snapshot ;;
  if data_file_writable e
  then assign (set_data_file (Some data))
  else print ErrorSavingData.

Definition save_history (e : env) : M trader unit :=
  h <- attr transaction_history ;;
  if history_file_writable e
  then assign (set_history_file (Some h))
  else print ErrorSavingHistory.

(** The dict that [record_transaction] builds. *)
Definition entry (e : env) (kind : txn_type) (amount btc_amount price : float) :
    transaction :=
  {| txn_id := uuid4 e; txn_kind := kind; amount_usd := amount; btc := btc_amount;
     price_per_btc := price; timestamp := (utcnow e ++ "Z")%string |}.

Definition record_transaction (e : env) (kind : txn_type)
    (amount btc_amount price : float) : M trader unit :=
  let transaction := entry e kind amount btc_amount price in
  assign (fun t => set_transaction_history (transaction_history t ++ [transaction]) t) ;;;
  save_history e.

(** ** Decoded JSON *)

(** The Python values [json.loads] builds.  An object is given by the items
    of the resulting dict, whose keys are strings. *)
Inductive json : Type :=
  | JNull
  | JBool (b : bool)
  | JInt (n : Z)
  | JFloat (x : float)
  | JStr (s : string)
  | JList (l : list json)
  | JDict (items : list (string * json)).

Fixpoint dict_get (items : list (string * json)) (k : string) : option json :=
  match items with
  | [] => None
  | (k', v) :: rest => if String.eqb k' k then Some v else dict_get rest k
  end.

(** [v[k]] for a string key [k]. *)
Definition getitem_key (v : json) (k : string) : completion json :=
  match v with
  | JDict items =>
      match dict_get items k with
      | Some x => Normal x
      | None => Raised KeyError
      end
  | _ => Raised TypeError   (* list and str indices must be integers;
                               None, bool, int and float are not subscriptable *)
  end.

(** [v[i]] for an index [i >= 0]. *)
Definition getitem_index (v : json) (i : nat) : completion json :=
  match v with
  | JList l =>
      match nth_error l i with
      | Some x => Normal x
      | None => Raised IndexError
      end
  | JStr s =>
      match String.get i s with
      | Some c => Normal (JStr (String c EmptyString))
      | None => Raised IndexError
      end
  | JDict _ => Raised KeyError   (* no integer key in a decoded object *)
  | _ => Raised TypeError
  end.

Section Program.

Local Open Scope float_scope.

(** [float(s)] for a [str]: the parsed number, or [None] for [ValueError]. *)
Variable float_of_str : string -> option float.

(** [json.loads(message)]: the decoded value, or [None] for
    [json.JSONDecodeError]. *)
Variable json_loads : string -> option json.

(** [float(v)]. *)
Definition py_float (v : json) : completion float :=
  match v with
  | JFloat x => Normal x
  | JInt n => PyFloat.of_int n
  | JBool b => Normal (if b then 1 else 0)
  | JStr s =>
      match float_of_str s with
      | Some x => Normal x
      | None => Raised ValueError
      end
  | JNull | JList _ | JDict _ => Raised TypeError
  end.

Definition py_float_str {S} (s : string) : M S float := lift (py_float (JStr s)).

(** ** The feed handler *)

(** [isinstance(data, list) and len(data) >= 2] *)
Definition is_list_of_two (data : json) : bool :=
  match data with
  | JList l => (2 <=? List.length l)%nat
  | _ => false
  end.

Definition is_feed_error (e : exn) : bool :=
  match e with
  | KeyError | ValueError | IndexError => true
  | _ => false
  end.

(** [on_message]; the state is the global [latest_btc_price]. *)
Definition on_message (message : string) : M (option float) unit :=
  try_except
    (data <- match json_loads message with
             | Some d => ret d
             | None => raise ValueError
             end ;;
     if is_list_of_two data then
       ticker_info <- lift (getitem_index data 1) ;;
       c <- lift (getitem_key ticker_info "c") ;;
       first <- lift (getitem_index c 0) ;;
       latest_price <- lift (py_float first) ;;
       assign (fun _ => Some latest_price)
     else ret tt)
    is_feed_error
    (fun e => print (ErrorParsingMessage e)).

(** ** The trading methods *)

(** [buy_btc]; [line] is what [input] returns (a closed standard input is
    outside the model). *)
Definition buy_btc (e : env) (line : string) : M trader unit :=
  try_except
    (amount <- py_float_str line ;;
     if amount <=? 0 then print InvalidAmount
     else
       cash <- attr cash_balance ;;
       if cash <? amount then print InsufficientCash
       else
         match get_current_btc_price e with
         | None => print PriceUnavailable
         | Some price =>
             btc_bought <- lift (PyFloat.truediv amount price) ;;
             assign (fun t => set_cash_balance (cash_balance t - amount) t) ;;;
             assign (fun t => set_btc_balance (btc_balance t + btc_bought) t) ;;;
             print (Bought btc_bought price amount) ;;;
             record_transaction e buy amount btc_bought price ;;;
             save_data e
         end)
    is_ValueError
    (fun _ => print InvalidInput).

(** [sell_btc]; [sub_choice] is the stripped answer to the menu and [line]
    the answer to the amount prompt, which is read in mode 2 only. *)
Definition sell_btc (e : env) (sub_choice line : string) : M trader unit :=
  held <- attr btc_balance ;;
  if held =? 0 then print NothingToSell
  else if String.eqb sub_choice "1" then
    match get_current_btc_price e with
    | None => print PriceUnavailable
    | Some price =>
        btc_to_sell <- attr btc_balance ;;
        let amount := btc_to_sell * price in
        assign (set_btc_balance 0) ;;;
        assign (fun t => set_cash_balance (cash_balance t + amount) t) ;;;
        print (SoldAll btc_to_sell price amount) ;;;
        record_transaction e sell amount btc_to_sell price ;;;
        save_data e
    end
  else if String.eqb sub_choice "2" then
    try_except
      (amount <- py_float_str line ;;
       if amount <=? 0 then print InvalidAmount
       else
         match get_current_btc_price e with
         | None => print PriceUnavailable
         | Some price =>
             btc_to_sell <- lift (PyFloat.truediv amount price) ;;
             held <- attr btc_balance ;;
             if held <? btc_to_sell then print InsufficientAsset
             else
               assign (fun t => set_btc_balance (btc_balance t - btc_to_sell) t) ;;;
               assign (fun t => set_cash_balance (cash_balance t + amount) t) ;;;
               print (Sold btc_to_sell price amount) ;;;
               record_transaction e sell amount btc_to_sell price ;;;
               save_data e
         end)
      is_ValueError
      (fun _ => print InvalidInput)
  else print InvalidSelection.

End Program.

Section Views.

Local Open Scope float_scope.

(** [view_total_pl]: the figures it prints. *)
Definition view_total_pl (e : env) : M trader unit :=
  match get_current_btc_price e with
  | None => print PriceUnavailable
  | Some current_price =>
      cash <- attr cash_balance ;;
      held <- attr btc_balance ;;
      start <- attr starting_total ;;
      let current_total := cash + held * current_price in
      let pl := current_total - start in
      q <- lift (PyFloat.truediv (current_total - start) start) ;;
      let pl_percent := q * 100 in
      print (Valuation current_price cash held current_total pl pl_percent)
  end.

(** [view_transaction_history]: the rows, in the order of the list. *)
Definition view_transaction_history : M trader unit :=
  h <- attr transaction_history ;;
  match h with
  | [] => print NoTransactions
  | _ => print (HistoryTable h)
  end.

(** [reset_trader]; [confirm] is the answer stripped and lower-cased. *)
Definition reset_trader (e : env) (confirm : string) : M trader unit :=
  if String.eqb confirm "y" then
    start <- attr starting_cash ;;
    assign (set_cash_balance start) ;;;
    assign (set_btc_balance 0) ;;;
    assign (set_transaction_history []) ;;;
    save_data e ;;;
    save_history e ;;;
    print ResetDone
  else print ResetCancelled.

(** [view_cash_balance] and [view_btc_balance]. *)
Definition view_cash_balance : M trader unit :=
  cash <- attr cash_balance ;;
  print (CashBalance cash).

Definition view_btc_balance (e : env) : M trader unit :=
  match get_current_btc_price e with
  | None => print PriceUnavailable
  | Some price =>
      held <- attr btc_balance ;;
      print (BitcoinBalance (held * price) held price)
  end.

End Views.

(** ** The menu loop of [main] *)

(** One round of the loop: what the method called finds around it, the
    stripped answer to the menu and the answers to the prompts of the method
    (the amount or the confirmation, and for a sale the mode first). *)
Record turn : Type := {
  world : env;
  choice : string;
  first_answer : string;
  second_answer : string
}.

Section Menu.

Variable float_of_str : string -> option float.

(** The [if]/[elif] chain of [main] for the options 1 to 7. *)
Definition dispatch (tn : turn) : M trader unit :=
  if String.eqb (choice tn) "1" then view_cash_balance
  else if String.eqb (choice tn) "2" then view_btc_balance (world tn)
  else if String.eqb (choice tn) "3" then buy_btc float_of_str (world tn) (first_answer tn)
  else if String.eqb (choice tn) "4" then
    sell_btc float_of_str (world tn) (first_answer tn) (second_answer tn)
  else if String.eqb (choice tn) "5" then view_total_pl (world tn)
  else if String.eqb (choice tn) "6" then view_transaction_history
  else if String.eqb (choice tn) "7" then reset_trader (world tn) (first_answer tn)
  else print InvalidMenuSelection.

(** The loop over the rounds that the user plays: option 8 leaves it, and an
    exception that a method lets through ends it, since [main] catches
    none. *)
Fixpoint main_loop (turns : list turn) : M trader unit :=
  match turns with
  | [] => ret tt
  | tn :: rest =>
      if String.eqb (choice tn) "8" then print Goodbye
      else dispatch tn ;;; main_loop rest
  end.

End Menu.

(** ** The feed thread *)

Section FeedThread.

Variable float_of_str : string -> option float.
Variable json_loads : string -> option json.

(** The price cell after the handler was called on each message of a burst,
    in the order of arrival.  Only the state that a call leaves is used, so
    it does not matter here whether the caller of the handler reports an
    exception of the handler or swallows it. *)
Definition feed (messages : list string) (latest : option float) : option float :=
  fold_left
    (fun cell message => snd (fst (on_message float_of_str json_loads message cell)))
    messages latest.

(** A run of [main] after its waiting loop: before each round of the menu
    the feed thread handles a burst of messages (possibly none), and the
    method of the round reads the price cell as the burst left it. *)
Fixpoint fed (latest : option float) (rounds : list (list string * turn)) : Prop :=
  match rounds with
  | [] => True
  | (messages, tn) :: rest =>
      latest_btc_price (world tn) = feed messages latest
      /\ fed (feed messages latest) rest
  end.

End FeedThread.

(** ** The constructor and the two loaders

    [__init__], [load_data] and [load_history] work on values that come out
    of the files unchecked, so here an attribute holds a decoded JSON value
    of any type, and an attribute of the new object may still be unset.  A
    file is represented by what [json.load] makes of it. *)

Module Startup.

Local Open Scope float_scope.

(** What [json.load] makes of the text of a file. *)
Inductive content : Type :=
  | Garbled                  (* [json.JSONDecodeError] *)
  | Document (doc : json).   (* the decoded value *)

(** The files at the paths [self.data_file] and [self.history_file];
    [None]: no such file. *)
Record disk : Type := {
  data_path : option content;
  history_path : option content
}.

(** The object under construction; [None] for an attribute that no
    assignment has set yet. *)
Record object : Type := {
  starting_cash : float;
  starting_total : json;
  cash_balance : option json;
  btc_balance : option json;
  transaction_history : option json;
  files : disk
}.

Definition set_starting_total (v : json) (o : object) : object :=
  {| starting_cash := starting_cash o; starting_total := v;
     cash_balance := cash_balance o; btc_balance := btc_balance o;
     transaction_history := transaction_history o; files := files o |}.

Definition set_cash_balance (v : json) (o : object) : object :=
  {| starting_cash := starting_cash o; starting_total := starting_total o;
     cash_balance := Some v; btc_balance := btc_balance o;
     transaction_history := transaction_history o; files := files o |}.

Definition set_btc_balance (v : json) (o : object) : object :=
  {| starting_cash := starting_cash o; starting_total := starting_total o;
     cash_balance := cash_balance o; btc_balance := Some v;
     transaction_history := transaction_history o; files := files o |}.

Definition set_transaction_history (v : json) (o : object) : object :=
  {| starting_cash := starting_cash o; starting_total := starting_total o;
     cash_balance := cash_balance o; btc_balance := btc_balance o;
     transaction_history := Some v; files := files o |}.

Definition write_data (v : json) (o : object) : object :=
  {| starting_cash := starting_cash o; starting_total := starting_total o;
     cash_balance := cash_balance o; btc_balance := btc_balance o;
     transaction_history := transaction_history o;
     files := {| data_path := Some (Document v);
                 history_path := history_path (files o) |} |}.

Definition write_history (v : json) (o : object) : object :=
  {| starting_cash := starting_cash o; starting_total := starting_total o;
     cash_balance := cash_balance o; btc_balance := btc_balance o;
     transaction_history := transaction_history o;
     files := {| data_path := data_path (files o);
                 history_path := Some (Document v) |} |}.

(** The exceptions of this part of the program. *)
Inductive error : Type :=
  | JSONDecodeError
  | FileNotFoundError
  | AttributeError
  | Builtin (e : exn).   (* the classes that the trading methods know *)

Inductive outcome (A : Type) : Type :=
  | Returns (a : A)
  | Throws (x : error).

Arguments Returns {A} a.
Arguments Throws {A} x.

(** The lines that the constructor prints. *)
Inductive notice : Type :=
  | LoadedData (cash held : json)        (* "Loaded data: Cash: ..., BTC: ..." *)
  | InitializedWith (cash held : json)   (* "Initialized with Cash: ... and BTC: ..." *)
  | ErrorLoadingData      (* "Error loading data: ... Initializing with default values." *)
  | ErrorLoadingHistory   (* "Error loading transaction history: ... Initializing empty history." *)
  | Reported (m : message).

(** A method of the object under construction. *)
Definition run (A : Type) : Type := object -> outcome A * object * list notice.

Definition ret {A} (a : A) : run A := fun o => (Returns a, o, []).

Definition bind {A B} (c : run A) (k : A -> run B) : run B := fun o =>
  match c o with
  | (Returns a, o1, out1) =>
      let '(r, o2, out2) := k a o1 in (r, o2, out1 ++ out2)
  | (Throws x, o1, out1) => (Throws x, o1, out1)
  end.

Definition lift {A} (c : outcome A) : run A := fun o => (c, o, []).

Definition print (n : notice) : run unit := fun o => (Returns tt, o, [n]).

Definition assign (f : object -> object) : run unit := fun o => (Returns tt, f o, []).

(** Reading an attribute that is always set, and one that may be unset. *)
Definition attr {A} (f : object -> A) : run A := fun o => (Returns (f o), o, []).

Definition getattr (f : object -> option json) : run json := fun o =>
  match f o with
  | Some v => (Returns v, o, [])
  | None => (Throws AttributeError, o, [])
  end.

Definition try_except {A} (body : run A) (caught : error -> bool)
    (handler : error -> run A) : run A :=
  fun o =>
    match body o with
    | (Throws x, o1, out1) =>
        if caught x
        then let '(r, o2, out2) := handler x o1 in (r, o2, out1 ++ out2)
        else (Throws x, o1, out1)
    | returned => returned
    end.

Local Notation "x <~ c ;; k" := (bind c (fun x => k))
  (at level 61, c at next level, right associativity).
Local Notation "c >> k" := (bind c (fun _ => k))
  (at level 61, right associativity).

(** [with open(path, 'r') as f: json.load(f)] *)
Definition json_load (path : disk -> option content) : run json := fun o =>
  match path (files o) with
  | None => (Throws FileNotFoundError, o, [])
  | Some Garbled => (Throws JSONDecodeError, o, [])
  | Some (Document doc) => (Returns doc, o, [])
  end.

(** [data.get(k, default)]: only a dict has the method. *)
Definition get (data : json) (k : string) (default : json) : outcome json :=
  match data with
  | JDict items =>
      Returns (match dict_get items k with Some v => v | None => default end)
  | _ => Throws AttributeError
  end.

(** Formatting with [,.2f] or [.6f]: a float, an int that converts to a
    float and a bool are printed; a str gives [ValueError], anything else
    [TypeError]. *)
Definition format_f (v : json) : outcome unit :=
  match v with
  | JFloat _ | JBool _ => Returns tt
  | JInt n =>
      match PyFloat.of_int n with
      | Normal _ => Returns tt
      | Raised e => Throws (Builtin e)
      end
  | JStr _ => Throws (Builtin ValueError)
  | JNull | JList _ | JDict _ => Throws (Builtin TypeError)
  end.

Definition is_load_error (x : error) : bool :=
  match x with
  | JSONDecodeError | FileNotFoundError => true
  | _ => false
  end.

Definition save_data (e : env) : run unit :=
  cash <~ getattr cash_balance ;;
  held <~ getattr btc_balance ;;
  total <~ attr starting_total ;;
  let data := JDict [("cash_balance"%string, cash); ("btc_balance"%string, held);
                     ("starting_total"%string, total)] in
  if data_file_writable e
  then assign (write_data data)
  else print (Reported ErrorSavingData).

Definition save_history (e : env) : run unit :=
  h <~ getattr transaction_history ;;
  if history_file_writable e
  then assign (write_history h)
  else print (Reported ErrorSavingHistory).

Definition load_data (e : env) : run unit :=
  try_except
    (data <~ json_load data_path ;;
     start <~ attr starting_cash ;;
     cash <~ lift (get data "cash_balance" (JFloat start)) ;;
     assign (set_cash_balance cash) >>
     held <~ lift (get data "btc_balance" (JFloat 0)) ;;
     assign (set_btc_balance held) >>
     total <~ lift (get data "starting_total" (JFloat start)) ;;
     assign (set_starting_total total))
    is_load_error
    (fun _ =>
       print ErrorLoadingData >>
       start <~ attr starting_cash ;;
       assign (set_cash_balance (JFloat start)) >>
       assign (set_btc_balance (JFloat 0)) >>
       assign (set_starting_total (JFloat start)) >>
       save_data e).

Definition load_history (e : env) : run unit :=
  try_except
    (h <~ json_load history_path ;;
     assign (set_transaction_history h))
    is_load_error
    (fun _ =>
       print ErrorLoadingHistory >>
       assign (set_transaction_history (JList [])) >>
       save_history e).

(** The body of [__init__] after its first four assignments, which [fresh]
    below makes. *)
Definition init (e : env) : run unit :=
  data_file <~ attr (fun o => data_path (files o)) ;;
  match data_file with
  | Some _ =>       (* os.path.exists(self.data_file) *)
      load_data e >>
      cash <~ getattr cash_balance ;;
      lift (format_f cash) >>
      held <~ getattr btc_balance ;;
      lift (format_f held) >>
      print (LoadedData cash held)
  | None =>
      start <~ attr starting_cash ;;
      assign (set_cash_balance (JFloat start)) >>
      assign (set_btc_balance (JFloat 0)) >>
      save_data e >>
      cash <~ getattr cash_balance ;;
      lift (format_f cash) >>
      held <~ getattr btc_balance ;;
      lift (format_f held) >>
      print (InitializedWith cash held)
  end >>
  history_file <~ attr (fun o => history_path (files o)) ;;
  match history_file with
  | Some _ => load_history e
  | None =>
      assign (set_transaction_history (JList [])) >>
      save_history e
  end.

(** The object as the first four assignments of [__init__] leave it. *)
Definition fresh (starting_cash : float) (d : disk) : object :=
  {| starting_cash := starting_cash; starting_total := JFloat starting_cash;
     cash_balance := None; btc_balance := None; transaction_history := None;
     files := d |}.

(** [BitcoinPaperTrader(starting_cash)] with the files [d] at the two
    paths. *)
Definition BitcoinPaperTrader (e : env) (starting_cash : float) (d : disk) :
    outcome unit * object * list notice :=
  init e (fresh starting_cash d).

End Startup.

(** ** Vocabulary of the statements *)

(** The distance between the notional value [btc * price_per_btc] of a
    recorded transaction and its USD amount, and the test that it is within a
    tolerance, both computed like the balances, in binary64. *)
Definition notional_gap (txn : transaction) : float :=
  abs (btc txn * price_per_btc txn - amount_usd txn).

Definition within_tolerance (tol : float) (txn : transaction) : bool :=
  (notional_gap txn <=? tol)%float.

(** The state a call leaves behind. *)
Definition state_after {S A} (run : completion A * S * list message) : S := snd (fst run).

(** How a call ends. *)
Definition completion_of {S A} (run : completion A * S * list message) : completion A :=
  fst (fst run).

(** The shapes of a decoded feed message, as the handler tells them apart. *)
Section FeedShapes.

Variable float_of_str : string -> option float.

(** [first_entry c x]: [x] is what [c[0]] denotes for a non-empty list or
    string [c]. *)
Inductive first_entry : json -> json -> Prop :=
  | first_of_list (x : json) (rest : list json) :
      first_entry (JList (x :: rest)) x
  | first_of_str (ch : ascii) (rest : string) :
      first_entry (JStr (String ch rest)) (JStr (String ch EmptyString)).

(** Sequencing of two evaluations: an exception of the first one ends both. *)
Definition and_then {A B} (c : completion A) (k : A -> completion B) : completion B :=
  match c with
  | Normal a => k a
  | Raised e => Raised e
  end.

(** The expression [float(data[1]['c'][0])] of the handler. *)
Definition ticker_price (data : json) : completion float :=
  and_then (getitem_index data 1) (fun ticker_info =>
  and_then (getitem_key ticker_info "c") (fun c =>
  and_then (getitem_index c 0) (py_float float_of_str))).

(** [carries_price data p]: a list of at least two elements whose second
    element is an object with a field ['c'] whose first entry converts to the
    float [p]. *)
Inductive carries_price : json -> float -> Prop :=
  | ticker (head : json) (items : list (string * json)) (rest : list json)
      (c x : json) (p : float) :
      dict_get items "c" = Some c ->
      first_entry c x ->
      py_float float_of_str x = Normal p ->
      carries_price (JList (head :: JDict items :: rest)) p.

(** The results of [json.loads] that the handler discards: text that is not
    JSON; a value that is not a list of at least two elements; a second
    element that is an object without field ['c'], or whose field ['c'] is an
    empty list, an empty string or an object, or has a string for first entry
    that is no number. *)
Inductive discarded : option json -> Prop :=
  | not_json : discarded None
  | not_a_ticker_list (data : json) :
      is_list_of_two data = false -> discarded (Some data)
  | field_missing (head : json) (items : list (string * json)) (rest : list json) :
      dict_get items "c" = None ->
      discarded (Some (JList (head :: JDict items :: rest)))
  | field_empty (head : json) (items : list (string * json)) (rest : list json)
      (c : json) :
      dict_get items "c" = Some c ->
      (c = JList [] \/ c = JStr "" \/ exists kv, c = JDict kv) ->
      discarded (Some (JList (head :: JDict items :: rest)))
  | not_numeric (head : json) (items : list (string * json)) (rest : list json)
      (c : json) (s : string) :
      dict_get items "c" = Some c ->
      first_entry c (JStr s) ->
      float_of_str s = None ->
      discarded (Some (JList (head :: JDict items :: rest))).

End FeedShapes.

(** ** Vocabulary on binary64 values *)

(** What a rounded non-negative mantissa becomes: a zero, a finite number or
    an infinity of the given sign. *)
Definition signed_as (s : bool) (x : spec_float) : Prop :=
  match x with
  | S754_zero s' | S754_infinity s' | S754_finite s' _ _ => s' = s
  | S754_nan => False
  end.

(** [x >= 0] and [x > 0] on the specification of binary64 numbers. *)
Definition SFnonneg (x : spec_float) : bool := SFleb (S754_zero false) x.
Definition SFpos (x : spec_float) : bool := SFltb (S754_zero false) x.

(** [located N H mrs]: the record holds the quotient of [N] by [H] and tells
    where the remainder lies with respect to [H / 2]. *)
Definition located (N H : Z) (mrs : shr_record) : Prop :=
  let R := (N - shr_m mrs * H)%Z in
  (0 <= shr_m mrs)%Z /\ (0 <= R < H)%Z
  /\ shr_r mrs = (H <=? 2 * R)%Z
  /\ shr_s mrs = negb (R =? 0)%Z && negb (2 * R =? H)%Z.

(** The rational number that a finite binary64 number denotes (and 0 for
    infinities and NaN). *)
Definition SF2Q (x : spec_float) : Q :=
  match x with
  | S754_finite s m e => ((if s then -1 else 1) * inject_Z (Zpos m) * 2 ^ e)%Q
  | _ => 0%Q
  end.

Definition Prim2Q (x : float) : Q := SF2Q (Prim2SF x).

(** A normal number has a mantissa of [prec] digits. *)
Definition normal_mantissa (m : positive) : Prop := (2 ^ (prec - 1) <= Zpos m)%Z.



(** The state in which both files hold what the object holds. *)
Definition persisted (t : trader) : Prop :=
  data_file t = Some (snapshot t) /\ history_file t = Some (transaction_history t).

(** A call keeps a property of the trader. *)
Definition preserves {A} (P : trader -> Prop) (c : M trader A) : Prop :=
  forall t, P t -> P (state_after (c t)).

(** The history extends [h]. *)
Definition extends (h : list transaction) (t : trader) : Prop :=
  exists added, transaction_history t = h ++ added.

(** The baseline is [(cash, total)]. *)
Definition baseline (cash total : float) (t : trader) : Prop :=
  starting_cash t = cash /\ starting_total t = total.

(** A round in which both files can be written, and one that is no confirmed
    reset. *)
Definition writable (tn : turn) : Prop :=
  data_file_writable (world tn) = true /\ history_file_writable (world tn) = true.

Definition keeps_history (tn : turn) : Prop :=
  choice tn = "7"%string -> first_answer tn <> "y"%string.

(** Both balances are [>= 0]. *)
Definition balances_nonneg (t : trader) : Prop :=
  PyFloat.nonneg (cash_balance t) = true /\ PyFloat.nonneg (btc_balance t) = true.

(** The lines a call prints. *)
Definition printed {S A} (run : completion A * S * list message) : list message := snd run.

(** What the object holds, apart from the two files. *)
Definition in_memory (t : trader) :
    float * float * float * float * list transaction :=
  (starting_cash t, starting_total t, cash_balance t, btc_balance t,
   transaction_history t).

(** Two surroundings that differ at most in which files can be written. *)
Definition same_inputs (e e' : env) : Prop :=
  latest_btc_price e = latest_btc_price e' /\ uuid4 e = uuid4 e' /\ utcnow e = utcnow e'.

(** Two rounds with the same answers, in such surroundings. *)
Definition same_round (tn tn' : turn) : Prop :=
  same_inputs (world tn) (world tn') /\ choice tn = choice tn'
  /\ first_answer tn = first_answer tn' /\ second_answer tn = second_answer tn'.

(** A round that leaves the menu loop. *)
Definition quits (tn : turn) : Prop := choice tn = "8"%string.

Section FeedVocabulary.

Variable float_of_str : string -> option float.
Variable json_loads : string -> option json.

(** A message that carries no price: it does not decode, or what it
    decodes to is no tick with a price. *)
Definition silent (message : string) : Prop :=
  forall data p, json_loads message = Some data -> ~ carries_price float_of_str data p.

End FeedVocabulary.

(** ** The files as the trading methods write them

    The documents that [save_data] and [save_history] dump: the dict of the
    three balances and the list of the transaction dicts, with the floats
    they hold. *)

Definition encode_data (d : saved_data) : json :=
  JDict [("cash_balance"%string, JFloat (saved_cash_balance d));
         ("btc_balance"%string, JFloat (saved_btc_balance d));
         ("starting_total"%string, JFloat (saved_starting_total d))].

Definition type_name (kind : txn_type) : string :=
  match kind with
  | buy => "buy"
  | sell => "sell"
  end.

Definition encode_transaction (txn : transaction) : json :=
  JDict [("id"%string, JStr (txn_id txn));
         ("type"%string, JStr (type_name (txn_kind txn)));
         ("amount_usd"%string, JFloat (amount_usd txn));
         ("btc"%string, JFloat (btc txn));
         ("price_per_btc"%string, JFloat (price_per_btc txn));
         ("timestamp"%string, JStr (timestamp txn))].

Definition encode_history (h : list transaction) : json :=
  JList (map encode_transaction h).

(** The two files of a trader, as the constructor finds them. *)
Definition on_disk (t : trader) : Startup.disk :=
  {| Startup.data_path :=
       option_map (fun d => Startup.Document (encode_data d)) (data_file t);
     Startup.history_path :=
       option_map (fun h => Startup.Document (encode_history h)) (history_file t) |}.

(** The trader as an object of the constructor: every attribute set, to the
    float or to the list it holds. *)
Definition reflect (t : trader) : Startup.object :=
  {| Startup.starting_cash := starting_cash t;
     Startup.starting_total := JFloat (starting_total t);
     Startup.cash_balance := Some (JFloat (cash_balance t));
     Startup.btc_balance := Some (JFloat (btc_balance t));
     Startup.transaction_history := Some (encode_history (transaction_history t));
     Startup.files := on_disk t |}.

(** The value that an object holds under a key, or a default. *)
Definition value_or (items : list (string * json)) (k : string) (default : json) : json :=
  match dict_get items k with
  | Some v => v
  | None => default
  end.



(** ** Sample instances of the library parameters

    A reader of decimal literals ([-12], [65000.1], [.5], [1e-320]) and of
    [nan] and [inf], and a table of decoded messages; they instantiate
    [float_of_str] and [json.loads] in the examples below.  The reader rounds
    the exact value of the literal once, to nearest with ties to even, as
    Python's [float] does. *)
Module Sample.

Local Open Scope float_scope.

Definition digit_of (c : ascii) : option Z :=
  let d := Z.of_nat (nat_of_ascii c) in
  if ((48 <=? d) && (d <=? 57))%Z then Some (d - 48)%Z else None.

(** A string of at least one digit, as an integer. *)
Fixpoint digits (s : string) (acc : Z) (any : bool) : option Z :=
  match s with
  | EmptyString => if any then Some acc else None
  | String c rest =>
      match digit_of c with
      | Some d => digits rest (10 * acc + d)%Z true
      | None => None
      end
  end.

Definition exponent (s : string) : option Z :=
  match s with
  | String "-"%char rest => option_map Z.opp (digits rest 0%Z false)
  | String "+"%char rest => digits rest 0%Z false
  | _ => digits s 0%Z false
  end.

(** Scans [digits [. digits] [e exponent]]: the digits [m] as an integer and
    the power of ten [x] such that the literal denotes [m * 10 ^ x]. *)
Fixpoint scan (s : string) (m k : Z) (dot any : bool) : option (Z * Z) :=
  match s with
  | EmptyString => if any then Some (m, (- k)%Z) else None
  | String c rest =>
      if Ascii.eqb c "."%char then
        if dot then None else scan rest m k true any
      else if Ascii.eqb c "e"%char || Ascii.eqb c "E"%char then
        if any then option_map (fun x => (m, (x - k)%Z)) (exponent rest) else None
      else
        match digit_of c with
        | Some d => scan rest (10 * m + d)%Z (if dot then (k + 1)%Z else k) dot true
        | None => None
        end
  end.

(** The binary64 number nearest to [m * 10 ^ x], for [m >= 0]: an integer is
    rounded once, a fraction is the rounded quotient of two integers. *)
Definition decimal (m x : Z) : float :=
  match m, x with
  | Zpos p, Zneg k =>
      SF2Prim (SFdiv prec emax (S754_finite false p 0) (S754_finite false (10 ^ k) 0))
  | _, _ => SF2Prim (binary_normalize prec emax (m * 10 ^ x) 0 false)
  end.

Definition unsigned (s : string) : option float :=
  if String.eqb s "nan" then Some nan
  else if String.eqb s "inf" then Some infinity
  else option_map (fun mx => decimal (fst mx) (snd mx)) (scan s 0 0 false false).

Definition float_of_str (s : string) : option float :=
  match s with
  | String "-"%char rest => option_map opp (unsigned rest)
  | String "+"%char rest => unsigned rest
  | _ => unsigned s
  end.

(** The tick of the Kraken ticker channel quoted in the specification, the
    same tick with JSON numbers for the price and the volume, and a tick
    without the field ['c']. *)
Definition tick : json :=
  JList [JInt 340; JDict [("c"%string, JList [JStr "65000.1"; JStr "0.5"])]].

Definition numeric_tick : json :=
  JList [JInt 340; JDict [("c"%string, JList [JFloat 65000.1; JFloat 0.5])]].

Definition tick_without_c : json :=
  JList [JInt 340; JDict [("a"%string, JList [JStr "65000.1"; JStr "0.5"])]].

(** [text s] is [s] with a double quote for each apostrophe. *)
Fixpoint text (s : string) : string :=
  match s with
  | EmptyString => EmptyString
  | String c rest =>
      String (if Ascii.eqb c "'"%char then ascii_of_nat 34 else c) (text rest)
  end.

(** [json.loads] on the messages of the examples; any other text stands for
    one that is not JSON. *)
Definition json_loads (message : string) : option json :=
  if String.eqb message (text "[340, {'c': ['65000.1', '0.5']}]") then Some tick
  else if String.eqb message (text "[340, {'c': [65000.1, 0.5]}]") then Some numeric_tick
  else if String.eqb message (text "[340, {'a': ['65000.1', '0.5']}]") then Some tick_without_c
  else if String.eqb message "[340, 7]" then Some (JList [JInt 340; JInt 7])
  else if String.eqb message (text "{'event': 'heartbeat'}")
       then Some (JDict [("event"%string, JStr "heartbeat")])
  else None.

Definition fresh : trader :=
  {| starting_cash := 20000; starting_total := 20000;
     cash_balance := 20000; btc_balance := 0;
     transaction_history := []; data_file := None; history_file := None |}.

(** The trader after it bought 0.2 BTC for 10000 USD. *)
Definition holding : trader :=
  {| starting_cash := 20000; starting_total := 20000;
     cash_balance := 10000; btc_balance := 0.2;
     transaction_history := []; data_file := None; history_file := None |}.

(** The trader as the constructor leaves it on a first run: both files
    written. *)
Definition opened : trader :=
  {| starting_cash := 20000; starting_total := 20000;
     cash_balance := 20000; btc_balance := 0;
     transaction_history := [];
     data_file := Some {| saved_cash_balance := 20000; saved_btc_balance := 0;
                          saved_starting_total := 20000 |};
     history_file := Some [] |}.

Definition at_price (p : option float) : env :=
  {| latest_btc_price := p; uuid4 := "0b7e"; utcnow := "2024-01-01T00:00:00";
     data_file_writable := true; history_file_writable := true |}.

(** A session: buy for 10000 USD at 50000, sell everything at 60000, look at
    the history, decline a reset, leave. *)
Definition session : list turn :=
  [ {| world := at_price (Some 50000); choice := "3";
       first_answer := "10000"; second_answer := "" |};
    {| world := at_price (Some 60000); choice := "4";
       first_answer := "1"; second_answer := "" |};
    {| world := at_price (Some 60000); choice := "6";
       first_answer := ""; second_answer := "" |};
    {| world := at_price (Some 60000); choice := "7";
       first_answer := "n"; second_answer := "" |};
    {| world := at_price (Some 60000); choice := "8";
       first_answer := ""; second_answer := "" |} ].

(** The same surroundings with both files read-only, and the sample session
    played in them. *)
Definition read_only (p : option float) : env :=
  {| latest_btc_price := p; uuid4 := "0b7e"; utcnow := "2024-01-01T00:00:00";
     data_file_writable := false; history_file_writable := false |}.

Definition session_read_only : list turn :=
  map (fun tn => {| world := read_only (latest_btc_price (world tn));
                    choice := choice tn; first_answer := first_answer tn;
                    second_answer := second_answer tn |})
      session.

(** A session in which the price cell holds [0.0] at the second purchase. *)
Definition stalled : list turn :=
  [ {| world := at_price (Some 50000); choice := "3";
       first_answer := "10000"; second_answer := "" |};
    {| world := at_price (Some 0); choice := "3";
       first_answer := "100"; second_answer := "" |};
    {| world := at_price (Some 60000); choice := "4";
       first_answer := "1"; second_answer := "" |} ].

(** Two rounds with what the feed sends before each: a tick, then a
    heartbeat and a line that is not JSON. *)
Definition live : list (list string * turn) :=
  [ ([text "[340, {'c': ['65000.1', '0.5']}]"],
     {| world := at_price (Some 65000.1); choice := "3";
        first_answer := "10000"; second_answer := "" |});
    ([text "{'event': 'heartbeat'}"; "<html>"%string],
     {| world := at_price (Some 65000.1); choice := "5";
        first_answer := ""; second_answer := "" |}) ].

(** No file yet; a data file edited by hand, with an integer balance and
    two keys missing, beside a history file that is not JSON; a data file
    that holds a list; and one whose cash balance is a string. *)
Definition no_files : Startup.disk :=
  {| Startup.data_path := None; Startup.history_path := None |}.

Definition hand_edited : Startup.disk :=
  {| Startup.data_path :=
       Some (Startup.Document (JDict [("cash_balance"%string, JInt 150)]));
     Startup.history_path := Some Startup.Garbled |}.



End Sample.

(** * Properties *)

(** ** Comparisons of binary64 numbers *)

Section FloatOrder.

Local Open Scope float_scope.

Lemma SFcompare_swap (x y : spec_float) :
  SFcompare y x = option_map CompOpp (SFcompare x y).
Proof.
  destruct x as [sx | sx | | sx mx ex], y as [sy | sy | | sy my ey]; simpl;
    try reflexivity;
    try (destruct sx; reflexivity); try (destruct sy; reflexivity);
    try (destruct sx, sy; reflexivity).
  destruct sx, sy; simpl; try reflexivity;
    rewrite (Z.compare_antisym ex ey);
    destruct (ex ?= ey)%Z; simpl; try reflexivity;
    rewrite (Pos.compare_cont_antisym mx my Eq); reflexivity.
Qed.

(** [x < y] excludes [y <= x]. *)
Lemma ltb_leb_false (x y : float) : (x <? y) = true -> (y <=? x) = false.
Proof.
  rewrite ltb_spec, leb_spec. unfold SFltb, SFleb.
  rewrite (SFcompare_swap (Prim2SF x) (Prim2SF y)).
  destruct (SFcompare (Prim2SF x) (Prim2SF y)) as [[ | | ] | ]; simpl; congruence.
Qed.

(** [x <= y] excludes [y < x], written [x > y] in the source. *)
Lemma leb_ltb_false (x y : float) : (x <=? y) = true -> (y <? x) = false.
Proof.
  rewrite ltb_spec, leb_spec. unfold SFltb, SFleb.
  rewrite (SFcompare_swap (Prim2SF x) (Prim2SF y)).
  destruct (SFcompare (Prim2SF x) (Prim2SF y)) as [[ | | ] | ]; simpl; congruence.
Qed.

(** No comparison with NaN holds. *)
Lemma nan_leb (x : float) : (nan <=? x) = false.
Proof.
  rewrite leb_spec. change (Prim2SF nan) with S754_nan. reflexivity.
Qed.

Lemma ltb_nan_r (x : float) : (x <? nan) = false.
Proof.
  rewrite ltb_spec. change (Prim2SF nan) with S754_nan.
  destruct (Prim2SF x) as [s | s | | s m e]; reflexivity.
Qed.

(** NaN propagates through the arithmetic of a purchase. *)
Lemma sub_nan_r (x : float) : x - nan = nan.
Proof.
  apply Prim2SF_inj. rewrite sub_spec. change (Prim2SF nan) with S754_nan.
  destruct (Prim2SF x) as [s | s | | s m e]; reflexivity.
Qed.

Lemma add_nan_r (x : float) : x + nan = nan.
Proof.
  apply Prim2SF_inj. rewrite add_spec. change (Prim2SF nan) with S754_nan.
  destruct (Prim2SF x) as [s | s | | s m e]; reflexivity.
Qed.

Lemma div_nan_l (x : float) : nan / x = nan.
Proof.
  apply Prim2SF_inj. rewrite div_spec. change (Prim2SF nan) with S754_nan.
  reflexivity.
Qed.

End FloatOrder.

(** ** Signs of binary64 results

    The sign of a sum, product, quotient or difference, read off the
    specification [SpecFloat] of the primitive operations. *)

Section Signs.

Local Open Scope Z_scope.

Lemma shr_1_nonneg (mrs : shr_record) : 0 <= shr_m mrs -> 0 <= shr_m (shr_1 mrs).
Proof.
  destruct mrs as [m r s]. simpl.
  destruct m as [ | [p | p | ] | [p | p | ] ]; simpl; lia.
Qed.

Lemma iter_shr_1_nonneg (p : positive) (mrs : shr_record) :
  0 <= shr_m mrs -> 0 <= shr_m (iter_pos shr_1 p mrs).
Proof.
  revert mrs. induction p as [p IH | p IH | ]; intros mrs H; simpl.
  - apply IH, IH, shr_1_nonneg, H.
  - apply IH, IH, H.
  - apply shr_1_nonneg, H.
Qed.

Lemma shr_fexp_nonneg (m e : Z) (l : location) :
  0 <= m -> 0 <= shr_m (fst (shr_fexp prec emax m e l)).
Proof.
  intros H. unfold shr_fexp, shr.
  assert (H0 : 0 <= shr_m (shr_record_of_loc m l)) by (destruct l as [ | [ | | ]]; exact H).
  destruct (fexp prec emax (Zdigits2 m + e) - e); simpl; auto.
  now apply iter_shr_1_nonneg.
Qed.

Lemma round_nearest_even_nonneg (m : Z) (l : location) :
  0 <= m -> 0 <= round_nearest_even m l.
Proof.
  intros H. destruct l as [ | [ | | ]]; simpl; try lia.
  destruct (Z.even m); lia.
Qed.

Lemma binary_round_aux_sign (s : bool) (m e : Z) (l : location) :
  0 <= m -> signed_as s (binary_round_aux prec emax s m e l).
Proof.
  intros H. unfold binary_round_aux.
  pose proof (shr_fexp_nonneg e l H) as H1.
  destruct (shr_fexp prec emax m e l) as [mrs' e'] eqn:E1. simpl in H1.
  pose proof (round_nearest_even_nonneg (loc_of_shr_record mrs') H1) as H2.
  pose proof (shr_fexp_nonneg e' loc_Exact H2) as H3.
  destruct (shr_fexp prec emax
              (round_nearest_even (shr_m mrs') (loc_of_shr_record mrs')) e' loc_Exact)
    as [mrs'' e''] eqn:E2. simpl in H3.
  destruct (shr_m mrs'') as [ | q | q ].
  - exact eq_refl.
  - destruct (e'' <=? emax - prec); exact eq_refl.
  - lia.
Qed.

Lemma signed_as_nonneg (x : spec_float) : signed_as false x -> SFnonneg x = true.
Proof.
  destruct x as [s | s | | s m e]; simpl; intros H; try subst s; try reflexivity.
  contradiction.
Qed.

Lemma SFpos_inv (x : spec_float) :
  SFpos x = true -> x = S754_infinity false \/ exists m e, x = S754_finite false m e.
Proof.
  destruct x as [s | [ | ] | | [ | ] m e]; simpl; try discriminate; intros _.
  - now left.
  - right. now exists m, e.
Qed.

Lemma SFmul_nonneg (x y : spec_float) :
  SFpos x = true -> SFpos y = true -> SFnonneg (SFmul prec emax x y) = true.
Proof.
  intros Hx Hy.
  destruct (SFpos_inv x Hx) as [-> | (mx & ex & ->)], (SFpos_inv y Hy) as [-> | (my & ey & ->)];
    try reflexivity.
  apply signed_as_nonneg. simpl. apply binary_round_aux_sign. lia.
Qed.

Lemma SFdiv_core_nonneg (m1 m2 : positive) (e1 e2 : Z) :
  0 <= fst (fst (SFdiv_core_binary prec emax (Zpos m1) e1 (Zpos m2) e2)).
Proof.
  unfold SFdiv_core_binary.
  set (e' := Z.min _ _). set (s := e1 - e2 - e').
  set (m' := match s with Z0 => Zpos m1 | Zpos _ => Z.shiftl (Zpos m1) s | Zneg _ => 0 end).
  assert (Hm' : 0 <= m').
  { unfold m'. destruct s; try lia. apply Z.shiftl_nonneg. lia. }
  pose proof (Z_div_mod m' (Zpos m2) eq_refl) as Hdiv.
  destruct (Z.div_eucl m' (Zpos m2)) as [q r]. simpl.
  destruct Hdiv as [Heq Hr]. nia.
Qed.

Lemma SFdiv_nonneg (x y : spec_float) :
  SFpos x = true -> SFpos y = true ->
  x <> S754_infinity false \/ y <> S754_infinity false ->
  SFnonneg (SFdiv prec emax x y) = true.
Proof.
  intros Hx Hy Hfin.
  destruct (SFpos_inv x Hx) as [-> | (mx & ex & ->)], (SFpos_inv y Hy) as [-> | (my & ey & ->)];
    try reflexivity.
  - destruct Hfin; congruence.
  - apply signed_as_nonneg. unfold SFdiv.
    pose proof (SFdiv_core_nonneg mx my ex ey) as H.
    destruct (SFdiv_core_binary prec emax (Zpos mx) ex (Zpos my) ey) as [[mz ez] lz].
    simpl in H. now apply binary_round_aux_sign.
Qed.

Lemma SFnonneg_inv (x : spec_float) :
  SFnonneg x = true ->
  (exists s, x = S754_zero s) \/ x = S754_infinity false \/ exists m e, x = S754_finite false m e.
Proof.
  destruct x as [s | [ | ] | | [ | ] m e]; simpl; try discriminate; intros _.
  - left. now exists s.
  - right. now left.
  - right. right. now exists m, e.
Qed.

Lemma binary_normalize_nonneg (m e : Z) :
  0 <= m -> SFnonneg (binary_normalize prec emax m e false) = true.
Proof.
  intros H. destruct m as [ | p | p]; simpl; [reflexivity | | lia].
  apply signed_as_nonneg. unfold binary_round.
  destruct (shl_align p e _) as [mz ez]. apply binary_round_aux_sign. lia.
Qed.

Lemma SFadd_nonneg (x y : spec_float) :
  SFnonneg x = true -> SFnonneg y = true -> SFnonneg (SFadd prec emax x y) = true.
Proof.
  intros Hx Hy.
  destruct (SFnonneg_inv x Hx) as [[sx ->] | [-> | (mx & ex & ->)]],
           (SFnonneg_inv y Hy) as [[sy ->] | [-> | (my & ey & ->)]];
    try reflexivity.
  - destruct sx, sy; reflexivity.
  - unfold SFadd. apply binary_normalize_nonneg. simpl. lia.
Qed.

Lemma digits2_pos_bounds (m : positive) :
  2 ^ (Zpos (digits2_pos m) - 1) <= Zpos m < 2 ^ Zpos (digits2_pos m).
Proof.
  induction m as [m IH | m IH | ]; simpl digits2_pos.
  - rewrite Pos2Z.inj_succ.
    replace (Z.succ (Zpos (digits2_pos m)) - 1)
      with (Z.succ (Zpos (digits2_pos m) - 1)) by lia.
    rewrite !Z.pow_succ_r by lia. lia.
  - rewrite Pos2Z.inj_succ.
    replace (Z.succ (Zpos (digits2_pos m)) - 1)
      with (Z.succ (Zpos (digits2_pos m) - 1)) by lia.
    rewrite !Z.pow_succ_r by lia. lia.
  - simpl. lia.
Qed.

Lemma iter_xO_value (m d : positive) : Zpos (Pos.iter xO m d) = Zpos m * 2 ^ Zpos d.
Proof.
  induction d as [ | d IH] using Pos.peano_ind.
  - simpl. lia.
  - rewrite Pos.iter_succ, Pos2Z.inj_succ, Z.pow_succ_r by lia.
    rewrite Pos2Z.inj_xO, IH. lia.
Qed.

Lemma shl_align_value (m : positive) (e e' : Z) :
  e' <= e -> Zpos (fst (shl_align m e e')) = Zpos m * 2 ^ (e - e').
Proof.
  intros H. unfold shl_align.
  destruct (e' - e) as [ | d | d] eqn:E; cbn [fst].
  - replace (e - e') with 0 by lia. now rewrite Z.pow_0_r, Z.mul_1_r.
  - lia.
  - rewrite iter_xO_value. replace (e - e') with (Zpos d) by lia. reflexivity.
Qed.

Lemma canonical_digits (m : positive) (e : Z) :
  canonical_mantissa prec emax m e = true ->
  SpecFloat.emin prec emax <= e /\ Zpos (digits2_pos m) <= prec /\
  (SpecFloat.emin prec emax < e -> Zpos (digits2_pos m) = prec).
Proof.
  unfold canonical_mantissa, fexp. intros H. apply Z.eqb_eq in H. lia.
Qed.

(** Among canonical positive numbers, a smaller exponent means a smaller value
    once both mantissas are aligned. *)
Lemma aligned_order (mx my : positive) (ex ey : Z) :
  canonical_mantissa prec emax mx ex = true ->
  canonical_mantissa prec emax my ey = true ->
  ey < ex ->
  Zpos my < Zpos mx * 2 ^ (ex - ey).
Proof.
  intros Hx Hy Hlt.
  destruct (canonical_digits _ _ Hx) as (_ & _ & Hdx).
  destruct (canonical_digits _ _ Hy) as (Hey & Hdy & _).
  specialize (Hdx ltac:(lia)).
  pose proof (digits2_pos_bounds mx) as Bx. pose proof (digits2_pos_bounds my) as By.
  rewrite Hdx in Bx.
  assert (Zpos my < 2 ^ prec).
  { apply Z.lt_le_trans with (1 := proj2 By). apply Z.pow_le_mono_r; lia. }
  assert (2 <= 2 ^ (ex - ey)).
  { change 2 with (2 ^ 1) at 1. apply Z.pow_le_mono_r; lia. }
  assert (2 ^ prec = 2 ^ (prec - 1) * 2).
  { replace prec with (Z.succ (prec - 1)) at 1 by lia. rewrite Z.pow_succ_r; [lia | ].
    unfold prec. lia. }
  nia.
Qed.

Lemma SFsub_nonneg (x y : spec_float) :
  valid_binary x = true -> valid_binary y = true ->
  SFnonneg y = true -> SFleb y x = true ->
  y <> S754_infinity false ->
  SFnonneg (SFsub prec emax x y) = true.
Proof.
  intros Vx Vy Hy Hle Hfin.
  destruct (SFnonneg_inv y Hy) as [[sy ->] | [-> | (my & ey & ->)]]; [ | congruence | ].
  - destruct x as [sx | [ | ] | | [ | ] mx ex]; simpl in Hle; try discriminate; try reflexivity.
    destruct sx, sy; reflexivity.
  - destruct x as [sx | [ | ] | | [ | ] mx ex]; simpl in Hle; try discriminate; try reflexivity.
    unfold SFsub. apply binary_normalize_nonneg.
    simpl in Vx, Vy. unfold bounded in Vx, Vy.
    apply andb_prop in Vx, Vy. destruct Vx as [Cx _], Vy as [Cy _].
    unfold cond_Zopp.
    change (IntDef.Z.min ex ey) with (Z.min ex ey).
    rewrite !shl_align_value by lia.
    unfold SFleb in Hle; simpl in Hle.
    destruct (ey ?= ex) eqn:Hcmp.
    + apply Z.compare_eq_iff in Hcmp. subst ey.
      rewrite Z.min_id, Z.sub_diag, Z.pow_0_r.
      destruct (Pos.compare_cont Eq my mx) eqn:Hc; try discriminate.
      * apply Pos.compare_eq in Hc. subst. lia.
      * change (my < mx)%positive in Hc. lia.
    + change (ey < ex) in Hcmp.
      pose proof (@aligned_order mx my ex ey Cx Cy Hcmp).
      rewrite Z.min_r by lia. rewrite Z.sub_diag, Z.pow_0_r. lia.
    + discriminate.
Qed.
End Signs.

Section PrimSigns.

Local Open Scope float_scope.

Lemma nonneg_spec (x : float) : PyFloat.nonneg x = SFnonneg (Prim2SF x).
Proof. unfold PyFloat.nonneg. now rewrite leb_spec. Qed.

Lemma pos_spec (x : float) : (0 <? x) = SFpos (Prim2SF x).
Proof. now rewrite ltb_spec. Qed.

Lemma below_infinity_spec (x : float) :
  (x <? infinity) = true -> Prim2SF x <> S754_nan /\ Prim2SF x <> S754_infinity false.
Proof.
  rewrite ltb_spec. change (Prim2SF infinity) with (S754_infinity false).
  destruct (Prim2SF x) as [s | [ | ] | | s m e]; cbn; intros H; split; congruence.
Qed.

Lemma add_nonneg (x y : float) :
  PyFloat.nonneg x = true -> PyFloat.nonneg y = true -> PyFloat.nonneg (x + y) = true.
Proof. rewrite !nonneg_spec, add_spec. apply SFadd_nonneg. Qed.

Lemma mul_nonneg (x y : float) :
  (0 <? x) = true -> (0 <? y) = true -> PyFloat.nonneg (x * y) = true.
Proof. rewrite !pos_spec, nonneg_spec, mul_spec. apply SFmul_nonneg. Qed.

Lemma div_nonneg (x y : float) :
  (0 <? x) = true -> (0 <? y) = true -> (x <? infinity) = true ->
  PyFloat.nonneg (x / y) = true.
Proof.
  intros Hx Hy Hfin. apply below_infinity_spec in Hfin.
  rewrite pos_spec in Hx, Hy. rewrite nonneg_spec, div_spec.
  apply SFdiv_nonneg; auto. left. apply Hfin.
Qed.

Lemma sub_nonneg (x y : float) :
  PyFloat.nonneg y = true -> (y <=? x) = true -> (y <? infinity) = true ->
  PyFloat.nonneg (x - y) = true.
Proof.
  intros Hy Hle Hfin. apply below_infinity_spec in Hfin.
  rewrite nonneg_spec in Hy. rewrite leb_spec in Hle. rewrite nonneg_spec, sub_spec.
  apply SFsub_nonneg; auto using Prim2SF_valid. apply Hfin.
Qed.

(** The tests of the source, read for numbers that are not NaN. *)
Lemma not_leb_zero_pos (x : float) :
  (x <? infinity) = true -> (x <=? 0) = false -> (0 <? x) = true.
Proof.
  intros Hfin. apply below_infinity_spec in Hfin. destruct Hfin as [Hnan _].
  rewrite leb_spec, ltb_spec. change (Prim2SF 0) with (S754_zero false).
  destruct (Prim2SF x) as [s | [ | ] | | [ | ] m e]; cbn; congruence.
Qed.

Lemma nonneg_not_zero_pos (x : float) :
  PyFloat.nonneg x = true -> (x =? 0) = false -> (0 <? x) = true.
Proof.
  rewrite nonneg_spec, eqb_spec, ltb_spec. change (Prim2SF 0) with (S754_zero false).
  destruct (Prim2SF x) as [s | [ | ] | | [ | ] m e]; cbn; congruence.
Qed.

Lemma pos_nonneg (x : float) : (0 <? x) = true -> PyFloat.nonneg x = true.
Proof.
  rewrite nonneg_spec, ltb_spec. change (Prim2SF 0) with (S754_zero false).
  destruct (Prim2SF x) as [s | [ | ] | | [ | ] m e]; cbn; congruence.
Qed.

Lemma not_ltb_leb (x y : float) :
  PyFloat.nonneg x = true -> PyFloat.nonneg y = true -> (x <? y) = false -> (y <=? x) = true.
Proof.
  rewrite !nonneg_spec, ltb_spec, leb_spec. unfold SFltb, SFleb.
  rewrite (SFcompare_swap (Prim2SF x) (Prim2SF y)).
  intros Hx Hy.
  destruct (SFnonneg_inv _ Hx) as [[sx ->] | [-> | (mx & ex & ->)]],
           (SFnonneg_inv _ Hy) as [[sy ->] | [-> | (my & ey & ->)]];
    simpl; try congruence.
  destruct (ex ?= ey)%Z; simpl; try congruence.
  destruct (Pos.compare_cont Eq mx my); simpl; congruence.
Qed.

Lemma leb_below_infinity (x y : float) :
  (y <=? x) = true -> (x <? infinity) = true -> (y <? infinity) = true.
Proof.
  rewrite leb_spec, !ltb_spec. change (Prim2SF infinity) with (S754_infinity false).
  destruct (Prim2SF x) as [sx | [ | ] | | sx mx ex], (Prim2SF y) as [sy | [ | ] | | sy my ey];
    cbn; try congruence; try (destruct sx; cbn; congruence).
Qed.
End PrimSigns.

(** ** Rounding error of binary64 results

    A finite result of a multiplication or of a division differs from the
    exact result by at most one unit in the last place, which is 2^-52 of a
    normal result. *)

Section Rounding.

Local Open Scope Z_scope.

(** Decides every integer comparison in sight. *)
Ltac tests :=
  repeat match goal with
         | |- context [?a <=? ?b] => destruct (Z.leb_spec a b)
         | |- context [?a =? ?b] => destruct (Z.eqb_spec a b)
         | H : context [?a <=? ?b] |- _ => destruct (Z.leb_spec a b)
         | H : context [?a =? ?b] |- _ => destruct (Z.eqb_spec a b)
         end.

(** One shift to the right divides by two and keeps the location of the
    remainder. *)
Lemma shr_1_located (N H : Z) (mrs : shr_record) :
  located N H mrs -> located N (2 * H) (shr_1 mrs).
Proof.
  destruct mrs as [m r s]. unfold located; cbn [shr_m shr_r shr_s].
  intros (Hm & HR & -> & ->).
  destruct m as [ | [p | p | ] | q]; try lia;
    cbn [shr_1 shr_m shr_r shr_s orb];
    (split; [lia | ]); (split; [lia | ]); split; tests;
    try reflexivity; try lia.
Qed.

Lemma located_eq (N H H' : Z) (mrs : shr_record) :
  H = H' -> located N H mrs -> located N H' mrs.
Proof. now intros <-. Qed.

Lemma iter_shr_1_located (p : positive) :
  forall (N H : Z) (mrs : shr_record),
    located N H mrs -> located N (H * 2 ^ Zpos p) (iter_pos shr_1 p mrs).
Proof.
  induction p as [p IH | p IH | ]; intros N H mrs Hloc; cbn [iter_pos].
  - apply located_eq with (H := 2 * H * 2 ^ Zpos p * 2 ^ Zpos p).
    + rewrite (Pos2Z.inj_xI p), Z.pow_add_r, Z.pow_mul_r by lia.
      change (2 ^ 2) with 4. rewrite Z.pow_1_r.
      replace (4 ^ Zpos p) with (2 ^ Zpos p * 2 ^ Zpos p); [ring | ].
      rewrite <- Z.pow_mul_l. reflexivity.
    + apply IH, IH, shr_1_located, Hloc.
  - apply located_eq with (H := H * 2 ^ Zpos p * 2 ^ Zpos p).
    + rewrite (Pos2Z.inj_xO p), Z.pow_mul_r by lia.
      change (2 ^ 2) with 4.
      replace (4 ^ Zpos p) with (2 ^ Zpos p * 2 ^ Zpos p); [ring | ].
      rewrite <- Z.pow_mul_l. reflexivity.
    + apply IH, IH, Hloc.
  - apply located_eq with (H := 2 * H); [rewrite Z.pow_1_r; ring | ].
    apply shr_1_located, Hloc.
Qed.

Lemma shr_located (N H : Z) (mrs : shr_record) (e n : Z) :
  located N H mrs ->
  exists k, 0 <= k /\ snd (shr mrs e n) = e + k
            /\ located N (H * 2 ^ k) (fst (shr mrs e n)).
Proof.
  intros Hloc. unfold shr. destruct n as [ | p | p]; cbn [fst snd].
  - exists 0. rewrite Z.pow_0_r, Z.mul_1_r, Z.add_0_r. auto with zarith.
  - exists (Zpos p). split; [lia | ]. split; [reflexivity | ].
    now apply iter_shr_1_located.
  - exists 0. rewrite Z.pow_0_r, Z.mul_1_r, Z.add_0_r. auto with zarith.
Qed.

(** Rounding to nearest moves the quotient by at most half of [H]. *)
Lemma round_nearest_even_located (N H : Z) (mrs : shr_record) :
  located N H mrs ->
  let m := round_nearest_even (shr_m mrs) (loc_of_shr_record mrs) in
  0 <= m /\ - H <= 2 * (m * H - N) <= H.
Proof.
  destruct mrs as [m r s]. unfold located; cbn [shr_m shr_r shr_s].
  intros (Hm & HR & Hr & Hs).
  destruct r, s; cbn [loc_of_shr_record round_nearest_even];
    try destruct (Z.even m); tests; try discriminate; lia.
Qed.

Lemma located_exact (m : Z) : 0 <= m -> located m 1 (shr_record_of_loc m loc_Exact).
Proof.
  intros Hm. unfold located; cbn [shr_record_of_loc shr_m shr_r shr_s].
  replace (m - m * 1) with 0 by ring. repeat split; try lia; reflexivity.
Qed.

(** The finite results of rounding are within one unit in the last place of
    the number [N / D * 2 ^ E] that is rounded. *)
Lemma binary_round_aux_error (s s' : bool) (N D E m : Z) (l : location)
    (mr : positive) (er : Z) :
  located N D (shr_record_of_loc m l) ->
  binary_round_aux prec emax s m E l = S754_finite s' mr er ->
  exists j, 0 <= j /\ er = E + j
            /\ - (D * 2 ^ j) <= Zpos mr * (D * 2 ^ j) - N <= D * 2 ^ j.
Proof.
  intros Hloc. unfold binary_round_aux, shr_fexp.
  set (n1 := fexp prec emax (Zdigits2 m + E) - E). clearbody n1.
  destruct (shr_located E n1 Hloc) as (k & Hk & He' & Hloc').
  destruct (shr (shr_record_of_loc m l) E n1) as [mrs' e']. cbn [fst snd] in He', Hloc'.
  destruct (round_nearest_even_located Hloc') as [Hm'' Herr].
  set (m'' := round_nearest_even (shr_m mrs') (loc_of_shr_record mrs')) in *.
  clearbody m''.
  set (n2 := fexp prec emax (Zdigits2 m'' + e') - e'). clearbody n2.
  destruct (shr_located e' n2 (located_exact Hm'')) as (k2 & Hk2 & He'' & Hloc'').
  destruct (shr (shr_record_of_loc m'' loc_Exact) e' n2) as [mrs'' e''].
  cbn [fst snd] in He'', Hloc''.
  destruct Hloc'' as (_ & HR2 & _). rewrite Z.mul_1_l in HR2.
  destruct (shr_m mrs'') as [ | q | q]; try discriminate.
  destruct (e'' <=? emax - prec); try discriminate.
  intros Heq. injection Heq as <- <- <-.
  exists (k + k2). split; [lia | ]. split; [lia | ].
  rewrite Z.pow_add_r by lia.
  assert (0 < D) by (destruct Hloc as (_ & ? & _); lia).
  assert (0 < 2 ^ k) by (apply Z.pow_pos_nonneg; lia).
  assert (0 < 2 ^ k2) by (apply Z.pow_pos_nonneg; lia).
  nia.
Qed.

(** The location that a division computes from its remainder. *)
Lemma new_location_located (N D q r : Z) :
  0 < D -> 0 <= q -> N = D * q + r -> 0 <= r < D ->
  located N D (shr_record_of_loc q (new_location D r)).
Proof.
  intros HD Hq HN Hr. unfold located, new_location.
  destruct (Z.even D) eqn:Heven.
  - unfold new_location_even. destruct (Z.eqb_spec r 0) as [-> | Hr0].
    + cbn [shr_record_of_loc shr_m shr_r shr_s].
      repeat split; tests; try reflexivity; lia.
    + destruct (Z.compare_spec (2 * r) D); cbn [shr_record_of_loc shr_m shr_r shr_s];
        repeat split; tests; try reflexivity; lia.
  - assert (Hodd : Z.odd D = true) by (rewrite <- Z.negb_even, Heven; reflexivity).
    apply Z.odd_spec in Hodd. destruct Hodd as [c Hc].
    unfold new_location_odd. destruct (Z.eqb_spec r 0) as [-> | Hr0].
    + cbn [shr_record_of_loc shr_m shr_r shr_s].
      repeat split; tests; try reflexivity; lia.
    + destruct (Z.compare_spec (2 * r + 1) D); cbn [shr_record_of_loc shr_m shr_r shr_s];
        repeat split; tests; try reflexivity; lia.
Qed.

Lemma SFdiv_core_located (mx my : positive) (ex ey : Z) :
  exists s, 0 <= s
    /\ ex - ey = snd (fst (SFdiv_core_binary prec emax (Zpos mx) ex (Zpos my) ey)) + s
    /\ located (Zpos mx * 2 ^ s) (Zpos my)
         (shr_record_of_loc
            (fst (fst (SFdiv_core_binary prec emax (Zpos mx) ex (Zpos my) ey)))
            (snd (SFdiv_core_binary prec emax (Zpos mx) ex (Zpos my) ey))).
Proof.
  unfold SFdiv_core_binary.
  set (e' := Z.min _ _).
  assert (He' : e' <= ex - ey) by (unfold e'; lia). clearbody e'.
  remember (ex - ey - e') as s eqn:Es.
  assert (Hs : 0 <= s) by lia.
  set (m' := match s with Z0 => Zpos mx | Zpos _ => Z.shiftl (Zpos mx) s | Zneg _ => 0 end).
  assert (Hm' : m' = Zpos mx * 2 ^ s).
  { unfold m'. destruct s as [ | p | p]; try lia.
    apply Z.shiftl_mul_pow2. lia. }
  pose proof (Z_div_mod m' (Zpos my) eq_refl) as Hdiv.
  destruct (Z.div_eucl m' (Zpos my)) as [q r]. cbn [fst snd].
  destruct Hdiv as [Heq Hr].
  exists s. split; [exact Hs | ]. split; [lia | ].
  rewrite <- Hm'. apply new_location_located; try lia.
  assert (0 <= m') by (rewrite Hm'; apply Z.mul_nonneg_nonneg; [lia | apply Z.pow_nonneg; lia]).
  nia.
Qed.
End Rounding.

(** The same bounds on the rational numbers that the floats denote. *)
Section Exact.

Local Open Scope Q_scope.

Lemma pow2_pos (e : Z) : 0 < 2 ^ e.
Proof. apply Qpower_0_lt. reflexivity. Qed.

Lemma pow2_add (a b : Z) : 2 ^ (a + b) == 2 ^ a * 2 ^ b.
Proof. apply Qpower_plus. discriminate. Qed.

Lemma pow2_inject (j : Z) : (0 <= j)%Z -> inject_Z (2 ^ j) == 2 ^ j.
Proof. intros H. now rewrite Zpower_Qpower. Qed.

(** An integer bound carried to numbers scaled by a positive factor. *)
Lemma scaled_bound (A N : Z) (c : Q) :
  0 < c ->
  (- A <= 4503599627370496 * (A - N) <= A)%Z ->
  Qabs (inject_Z A * c - inject_Z N * c) <= (1 # 4503599627370496) * (inject_Z A * c).
Proof.
  intros Hc [Hlo Hhi].
  rewrite Zle_Qle in Hlo, Hhi. unfold Z.sub in Hlo, Hhi.
  repeat rewrite ?inject_Z_mult, ?inject_Z_plus, ?inject_Z_opp in Hlo.
  repeat rewrite ?inject_Z_mult, ?inject_Z_plus, ?inject_Z_opp in Hhi.
  change (inject_Z 4503599627370496) with (4503599627370496 # 1) in Hlo, Hhi.
  apply Qabs_Qle_condition. split.
  - setoid_replace (- ((1 # 4503599627370496) * (inject_Z A * c)))
      with ((- (1 # 4503599627370496) * inject_Z A) * c) by ring.
    setoid_replace (inject_Z A * c - inject_Z N * c)
      with ((inject_Z A - inject_Z N) * c) by ring.
    apply Qmult_le_compat_r; [ | now apply Qlt_le_weak].
    lra.
  - setoid_replace ((1 # 4503599627370496) * (inject_Z A * c))
      with (((1 # 4503599627370496) * inject_Z A) * c) by ring.
    setoid_replace (inject_Z A * c - inject_Z N * c)
      with ((inject_Z A - inject_Z N) * c) by ring.
    apply Qmult_le_compat_r; [ | now apply Qlt_le_weak].
    lra.
Qed.

Lemma binary_round_aux_finite_sign (s s' : bool) (m e : Z) (l : location)
    (mr : positive) (er : Z) :
  binary_round_aux prec emax s m e l = S754_finite s' mr er -> s' = s.
Proof.
  unfold binary_round_aux.
  destruct (shr_fexp prec emax m e l) as [mrs' e'].
  destruct (shr_fexp prec emax _ e' loc_Exact) as [mrs'' e''].
  destruct (shr_m mrs''); try discriminate.
  destruct (e'' <=? emax - prec)%Z; try discriminate.
  now intros H; injection H as <- _ _.
Qed.

(** The rounded product is within 2^-52 of the exact product, relatively,
    when it is a normal number. *)
Lemma SFmul_error (x y : spec_float) (mr : positive) (er : Z) :
  SFmul prec emax x y = S754_finite false mr er ->
  normal_mantissa mr ->
  Qabs (SF2Q x * SF2Q y - SF2Q (S754_finite false mr er))
    <= (1 # 4503599627370496) * SF2Q (S754_finite false mr er).
Proof.
  intros Hmul Hnormal.
  destruct x as [sx | sx | | sx mx ex], y as [sy | sy | | sy my ey]; try discriminate.
  cbn [SFmul] in Hmul.
  pose proof (@binary_round_aux_finite_sign _ _ _ _ _ _ _ Hmul) as Hsign.
  assert (Hloc : located (Zpos mx * Zpos my) 1
                   (shr_record_of_loc (Zpos (mx * my)) loc_Exact)).
  { rewrite <- Pos2Z.inj_mul. apply located_exact. lia. }
  destruct (@binary_round_aux_error _ _ _ _ _ _ _ _ _ Hloc Hmul) as (j & Hj & -> & Herr).
  rewrite Z.mul_1_l in Herr.
  cbn [SF2Q].
  assert (Hc : 0 < 2 ^ (ex + ey)) by apply pow2_pos.
  assert (Hnum : SF2Q (S754_finite false mr (ex + ey + j))
                 == inject_Z (Zpos mr * 2 ^ j) * 2 ^ (ex + ey)).
  { cbn [SF2Q]. rewrite pow2_add, inject_Z_mult, (pow2_inject Hj). ring. }
  assert (Hexact : (if sx then -1 else 1) * inject_Z (Zpos mx) * 2 ^ ex
                   * ((if sy then -1 else 1) * inject_Z (Zpos my) * 2 ^ ey)
                   == inject_Z (Zpos mx * Zpos my) * 2 ^ (ex + ey)).
  { rewrite pow2_add, inject_Z_mult. destruct sx, sy; try discriminate; ring. }
  cbn [SF2Q] in Hnum. rewrite Hnum, Hexact, Qabs_Qminus.
  apply scaled_bound; [exact Hc | ].
  unfold normal_mantissa in Hnormal. change (2 ^ (prec - 1))%Z with 4503599627370496%Z in Hnormal.
  assert (0 < 2 ^ j)%Z by (apply Z.pow_pos_nonneg; lia).
  nia.
Qed.

(** The notional value of a rounded quotient: [q * y] is within 2^-52 of
    [x], relatively, when [q = x / y] is a normal number and [x] is
    positive. *)
Lemma SFdiv_error (x y : spec_float) (mr : positive) (er : Z) :
  SFdiv prec emax x y = S754_finite false mr er ->
  normal_mantissa mr ->
  SFleb x (S754_zero false) = false ->
  Qabs (SF2Q (S754_finite false mr er) * SF2Q y - SF2Q x)
    <= (1 # 4503599627370496) * (SF2Q (S754_finite false mr er) * SF2Q y).
Proof.
  intros Hdiv Hnormal Hpos.
  destruct x as [sx | sx | | sx mx ex], y as [sy | sy | | sy my ey]; try discriminate.
  destruct sx; [discriminate | ]. clear Hpos.
  cbn [SFdiv] in Hdiv.
  destruct (SFdiv_core_located mx my ex ey) as (s & Hs & Hexp & Hloc).
  destruct (SFdiv_core_binary prec emax (Zpos mx) ex (Zpos my) ey) as [[mz ez] lz].
  cbn [fst snd] in Hexp, Hloc.
  pose proof (@binary_round_aux_finite_sign _ _ _ _ _ _ _ Hdiv) as Hsign.
  destruct sy; [discriminate | ]. clear Hsign.
  destruct (@binary_round_aux_error _ _ _ _ _ _ _ _ _ Hloc Hdiv) as (j & Hj & -> & Herr).
  assert (Hex : (ex = ez + ey + s)%Z) by lia. subst ex. clear Hexp.
  assert (Hc : 0 < 2 ^ (ez + ey)) by apply pow2_pos.
  assert (Hnum : SF2Q (S754_finite false mr (ez + j)) * SF2Q (S754_finite false my ey)
                 == inject_Z (Zpos mr * (Zpos my * 2 ^ j)) * 2 ^ (ez + ey)).
  { cbn [SF2Q]. rewrite !pow2_add, !inject_Z_mult, (pow2_inject Hj). ring. }
  assert (Hexact : SF2Q (S754_finite false mx (ez + ey + s))
                   == inject_Z (Zpos mx * 2 ^ s) * 2 ^ (ez + ey)).
  { cbn [SF2Q]. rewrite !pow2_add, !inject_Z_mult, (pow2_inject Hs). ring. }
  rewrite Hnum, Hexact.
  apply scaled_bound; [exact Hc | ].
  unfold normal_mantissa in Hnormal. change (2 ^ (prec - 1))%Z with 4503599627370496%Z in Hnormal.
  assert (0 < 2 ^ j)%Z by (apply Z.pow_pos_nonneg; lia).
  nia.
Qed.

Lemma classify_normal (x : float) :
  classify x = PNormal ->
  exists m e, Prim2SF x = S754_finite false m e /\ normal_mantissa m.
Proof.
  rewrite classify_spec. unfold SF64classify, SFclassify.
  destruct (Prim2SF x) as [[ | ] | [ | ] | | [ | ] m e]; try discriminate.
  - destruct (Z.eqb_spec (Zpos (digits2_pos m)) prec); discriminate.
  - destruct (Z.eqb_spec (Zpos (digits2_pos m)) prec) as [Hd | ]; [ | discriminate].
    intros _. exists m, e. split; [reflexivity | ].
    unfold normal_mantissa. rewrite <- Hd. apply digits2_pos_bounds.
Qed.

(** [b * p] is within 2^-52 of the exact product, relatively, when it is a
    positive normal number. *)
Theorem mul_relative_error (b p : float) :
  classify (b * p) = PNormal ->
  Qabs (Prim2Q b * Prim2Q p - Prim2Q (b * p)) <= (1 # 4503599627370496) * Prim2Q (b * p).
Proof.
  intros Hnormal. destruct (classify_normal Hnormal) as (mr & er & Hr & Hm).
  unfold Prim2Q. rewrite Hr. rewrite mul_spec in Hr. now apply SFmul_error.
Qed.

(** The exact product of [a / p] and [p] is within 2^-52 of [a], relatively,
    when the quotient is a positive normal number and [a] is not [<= 0]. *)
Theorem div_relative_error (a p : float) :
  classify (a / p) = PNormal ->
  (a <=? 0)%float = false ->
  Qabs (Prim2Q (a / p) * Prim2Q p - Prim2Q a)
    <= (1 # 4503599627370496) * (Prim2Q (a / p) * Prim2Q p).
Proof.
  intros Hnormal Hpos. destruct (classify_normal Hnormal) as (mr & er & Hr & Hm).
  unfold Prim2Q. rewrite Hr. rewrite div_spec in Hr. rewrite leb_spec in Hpos.
  now apply SFdiv_error.
Qed.




End Exact.

(** ** Order and addition

    Rounding to nearest is monotone: a sum of two numbers that are not
    negative is not below either of them. *)

Section Monotone.

Local Open Scope Z_scope.

Lemma round_nearest_even_ge (m : Z) (l : location) : m <= round_nearest_even m l.
Proof. destruct l as [ | [ | | ]]; simpl; try lia. destruct (Z.even m); lia. Qed.

Lemma shr_exponent (mrs : shr_record) (e n : Z) : snd (shr mrs e n) = e + Z.max n 0.
Proof. destruct n; simpl; lia. Qed.

Lemma digits_order (mx my : positive) (d : Z) :
  0 <= d -> Zpos my * 2 ^ d <= Zpos mx ->
  Zpos (digits2_pos my) + d <= Zpos (digits2_pos mx).
Proof.
  intros Hd Hle.
  pose proof (digits2_pos_bounds mx) as Bx. pose proof (digits2_pos_bounds my) as By.
  assert (H : 2 ^ (Zpos (digits2_pos my) - 1 + d) < 2 ^ Zpos (digits2_pos mx)).
  { rewrite Z.pow_add_r by lia. assert (0 < 2 ^ d) by (apply Z.pow_pos_nonneg; lia). nia. }
  apply Z.pow_lt_mono_r_iff in H; lia.
Qed.

(** One shift of an exact mantissa to its canonical exponent: the exponent
    reached and the quotient kept. *)
Lemma shr_fexp_floor (m : positive) (e : Z) :
  let r := shr_fexp prec emax (Zpos m) e loc_Exact in
  let k := Z.max (fexp prec emax (Zpos (digits2_pos m) + e) - e) 0 in
  snd r = e + k
  /\ 0 <= shr_m (fst r)
  /\ shr_m (fst r) * 2 ^ k <= Zpos m < (shr_m (fst r) + 1) * 2 ^ k.
Proof.
  intros r k. subst r. unfold shr_fexp. cbn [Zdigits2].
  fold k.
  pose proof (shr_exponent (shr_record_of_loc (Zpos m) loc_Exact) e
                (fexp prec emax (Zpos (digits2_pos m) + e) - e)) as Hexp.
  destruct (@shr_located (Zpos m) 1 (shr_record_of_loc (Zpos m) loc_Exact) e
              (fexp prec emax (Zpos (digits2_pos m) + e) - e))
    as (k' & Hk' & Hsnd & Hloc).
  { apply located_exact. lia. }
  assert (k' = k) by (subst k; lia). subst k'.
  split; [exact Hsnd | ].
  destruct Hloc as (Hm & HR & _). rewrite Z.mul_1_l in HR. lia.
Qed.

(** Rounding a positive integer that is at least a canonical number gives
    at least that number. *)
Lemma binary_round_aux_above (mz my : positive) (ez ey : Z) :
  canonical_mantissa prec emax my ey = true ->
  ez <= ey ->
  Zpos my * 2 ^ (ey - ez) <= Zpos mz ->
  SFleb (S754_finite false my ey)
        (binary_round_aux prec emax false (Zpos mz) ez loc_Exact) = true.
Proof.
  intros Cy Hez Hle.
  destruct (canonical_digits _ _ Cy) as (Hemin & Hdy & Hnormal).
  pose proof (@digits_order mz my (ey - ez) ltac:(lia) Hle) as Hdigits.
  assert (Hfexp : fexp prec emax (Zpos (digits2_pos my) + ey) = ey).
  { unfold canonical_mantissa in Cy. now apply Z.eqb_eq in Cy. }
  unfold binary_round_aux.
  destruct (shr_fexp_floor mz ez) as (He1 & Hm0 & Hfloor).
  destruct (shr_fexp prec emax (Zpos mz) ez loc_Exact) as [mrs1 e1]. cbn [fst snd] in *.
  set (k := Z.max (fexp prec emax (Zpos (digits2_pos mz) + ez) - ez) 0) in *.
  pose proof (round_nearest_even_ge (shr_m mrs1) (loc_of_shr_record mrs1)) as Hround.
  set (m1 := round_nearest_even (shr_m mrs1) (loc_of_shr_record mrs1)) in *.
  (* the exponent reached is at least [ey] *)
  assert (He1y : ey <= e1).
  { subst e1 k. unfold fexp in *. lia. }
  (* the mantissa reached *)
  assert (Hm1 : (e1 = ey -> Zpos my <= m1) /\ 1 <= m1).
  { assert (H2k : 0 < 2 ^ k) by (apply Z.pow_pos_nonneg; lia).
    split.
    - intros Heq. assert (k = ey - ez) by lia.
      assert (Zpos my < shr_m mrs1 + 1); [ | lia].
      apply Z.mul_lt_mono_pos_r with (p := 2 ^ k); [exact H2k | ].
      replace (2 ^ k) with (2 ^ (ey - ez)) at 1 by (f_equal; lia). lia.
    - destruct (Z.eq_dec e1 ey) as [Heq | Hne].
      + assert (k = ey - ez) by lia.
        assert (Zpos my < shr_m mrs1 + 1); [ | lia].
        apply Z.mul_lt_mono_pos_r with (p := 2 ^ k); [exact H2k | ].
        replace (2 ^ k) with (2 ^ (ey - ez)) at 1 by (f_equal; lia). lia.
      + (* above [ey] the number is normal *)
        assert (Hk : k = Zpos (digits2_pos mz) - prec).
        { subst e1 k. unfold fexp in *. lia. }
        pose proof (digits2_pos_bounds mz) as Bz.
        assert (2 ^ (Zpos (digits2_pos mz) - 1) = 2 ^ (prec - 1) * 2 ^ k).
        { rewrite <- Z.pow_add_r; [f_equal; lia | unfold prec; lia | lia]. }
        assert (2 ^ (prec - 1) < shr_m mrs1 + 1).
        { apply Z.mul_lt_mono_pos_r with (p := 2 ^ k); [exact H2k | ]. lia. }
        assert (0 < 2 ^ (prec - 1)) by (apply Z.pow_pos_nonneg; unfold prec; lia).
        lia. }
  destruct Hm1 as [Hsame Hpos].
  destruct m1 as [ | p1 | p1]; try lia.
  destruct (shr_fexp_floor p1 e1) as (He2 & Hm2 & Hfloor2).
  destruct (shr_fexp prec emax (Zpos p1) e1 loc_Exact) as [mrs2 e2]. cbn [fst snd] in *.
  set (k2 := Z.max (fexp prec emax (Zpos (digits2_pos p1) + e1) - e1) 0) in *.
  assert (Hpos2 : 1 <= shr_m mrs2 /\ (e2 = ey -> Zpos my <= shr_m mrs2)).
  { destruct (Z.eq_dec k2 0) as [Hz | Hnz].
    - rewrite Hz, Z.pow_0_r in Hfloor2. split; [lia | ]. intros Heq. 
      assert (e1 = ey) by lia. specialize (Hsame H). lia.
    - assert (Hk2 : k2 = Zpos (digits2_pos p1) - prec).
      { subst k2. unfold fexp in *. lia. }
      split; [ | intros Heq; lia].
      pose proof (digits2_pos_bounds p1) as B1.
      assert (H2k : 0 < 2 ^ k2) by (apply Z.pow_pos_nonneg; lia).
      assert (2 ^ (Zpos (digits2_pos p1) - 1) = 2 ^ (prec - 1) * 2 ^ k2).
      { rewrite <- Z.pow_add_r; [f_equal; lia | unfold prec; lia | lia]. }
      assert (2 ^ (prec - 1) < shr_m mrs2 + 1).
      { apply Z.mul_lt_mono_pos_r with (p := 2 ^ k2); [exact H2k | ]. lia. }
      assert (0 < 2 ^ (prec - 1)) by (apply Z.pow_pos_nonneg; unfold prec; lia).
      lia. }
  destruct Hpos2 as [Hpos2 Hsame2].
  destruct (shr_m mrs2) as [ | p2 | p2]; try lia.
  destruct (e2 <=? emax - prec); [ | reflexivity].
  unfold SFleb, SFcompare.
  destruct (ey ?= e2) eqn:Hcmp.
  - apply Z.compare_eq_iff in Hcmp. specialize (Hsame2 (eq_sym Hcmp)).
    destruct (Pos.compare_cont Eq my p2) eqn:Hc; try reflexivity.
    apply Pos.compare_gt_iff in Hc. lia.
  - reflexivity.
  - apply Z.compare_gt_iff in Hcmp. lia.
Qed.

Lemma shl_align_spec (m : positive) (e e' : Z) :
  snd (shl_align m e e') <= e
  /\ Zpos (fst (shl_align m e e')) = Zpos m * 2 ^ (e - snd (shl_align m e e')).
Proof.
  unfold shl_align. destruct (e' - e) as [ | d | d] eqn:E; cbn [fst snd].
  - rewrite Z.sub_diag, Z.pow_0_r. lia.
  - rewrite Z.sub_diag, Z.pow_0_r. lia.
  - rewrite iter_xO_value. replace (e - e') with (Zpos d) by lia. lia.
Qed.

Lemma binary_round_above (n my : positive) (e ey : Z) :
  canonical_mantissa prec emax my ey = true ->
  e <= ey ->
  Zpos my * 2 ^ (ey - e) <= Zpos n ->
  SFleb (S754_finite false my ey) (binary_round prec emax false n e) = true.
Proof.
  intros Cy He Hle. unfold binary_round.
  destruct (shl_align_spec n e (fexp prec emax (Zpos (digits2_pos n) + e))) as [Hez Hmz].
  destruct (shl_align n e (fexp prec emax (Zpos (digits2_pos n) + e))) as [mz ez].
  cbn [fst snd] in *.
  apply binary_round_aux_above; [exact Cy | lia | ].
  rewrite Hmz. replace (ey - ez) with ((ey - e) + (e - ez)) by lia.
  rewrite Z.pow_add_r by lia.
  assert (0 < 2 ^ (e - ez)) by (apply Z.pow_pos_nonneg; lia). nia.
Qed.

(** Adding a number that is not negative never gives less. *)
Lemma SFadd_above (x y : spec_float) :
  valid_binary x = true -> valid_binary y = true ->
  SFnonneg x = true -> SFnonneg y = true ->
  SFleb y (SFadd prec emax x y) = true.
Proof.
  intros Vx Vy Hx Hy.
  destruct (SFnonneg_inv x Hx) as [[sx ->] | [-> | (mx & ex & ->)]];
    destruct (SFnonneg_inv y Hy) as [[sy ->] | [-> | (my & ey & ->)]];
    try reflexivity.
  - destruct sx, sy; reflexivity.
  - cbn. rewrite Z.compare_refl, Pos.compare_cont_refl. reflexivity.
  - simpl in Vx, Vy. unfold bounded in Vx, Vy.
    apply andb_prop in Vx, Vy. destruct Vx as [Cx _], Vy as [Cy _].
    unfold SFadd, cond_Zopp.
    change (IntDef.Z.min ex ey) with (Z.min ex ey).
    destruct (shl_align_spec mx ex (Z.min ex ey)) as [_ Hx'].
    destruct (shl_align_spec my ey (Z.min ex ey)) as [_ Hy'].
    assert (Hsy : snd (shl_align my ey (Z.min ex ey)) = Z.min ex ey).
    { unfold shl_align. destruct (Z.min ex ey - ey) eqn:E; cbn [snd]; lia. }
    rewrite Hsy in Hy'.
    change (Zpos (fst (shl_align mx ex (Z.min ex ey)))
            + Zpos (fst (shl_align my ey (Z.min ex ey))))
      with (Zpos (fst (shl_align mx ex (Z.min ex ey))
                  + fst (shl_align my ey (Z.min ex ey)))).
    unfold binary_normalize.
    apply binary_round_above; [exact Cy | lia | ].
    rewrite Pos2Z.inj_add, Hy'. lia.
Qed.

Lemma SFadd_above_l (x y : spec_float) :
  valid_binary x = true -> valid_binary y = true ->
  SFnonneg x = true -> SFnonneg y = true ->
  SFleb x (SFadd prec emax x y) = true.
Proof.
  intros Vx Vy Hx Hy.
  destruct (SFnonneg_inv x Hx) as [[sx ->] | [-> | (mx & ex & ->)]];
    destruct (SFnonneg_inv y Hy) as [[sy ->] | [-> | (my & ey & ->)]];
    try reflexivity.
  - destruct sx, sy; reflexivity.
  - cbn. rewrite Z.compare_refl, Pos.compare_cont_refl. reflexivity.
  - simpl in Vx, Vy. unfold bounded in Vx, Vy.
    apply andb_prop in Vx, Vy. destruct Vx as [Cx _], Vy as [Cy _].
    unfold SFadd, cond_Zopp.
    change (IntDef.Z.min ex ey) with (Z.min ex ey).
    destruct (shl_align_spec mx ex (Z.min ex ey)) as [_ Hx'].
    assert (Hsx : snd (shl_align mx ex (Z.min ex ey)) = Z.min ex ey).
    { unfold shl_align. destruct (Z.min ex ey - ex) eqn:E; cbn [snd]; lia. }
    rewrite Hsx in Hx'.
    change (Zpos (fst (shl_align mx ex (Z.min ex ey)))
            + Zpos (fst (shl_align my ey (Z.min ex ey))))
      with (Zpos (fst (shl_align mx ex (Z.min ex ey))
                  + fst (shl_align my ey (Z.min ex ey)))).
    unfold binary_normalize.
    apply binary_round_above; [exact Cx | lia | ].
    rewrite Pos2Z.inj_add, Hx'. lia.
Qed.

Lemma digits_order_upper (mx mz : positive) (d : Z) :
  0 <= d -> Zpos mz <= Zpos mx * 2 ^ d ->
  Zpos (digits2_pos mz) <= Zpos (digits2_pos mx) + d.
Proof.
  intros Hd Hle.
  pose proof (digits2_pos_bounds mx) as Bx. pose proof (digits2_pos_bounds mz) as Bz.
  assert (H : 2 ^ (Zpos (digits2_pos mz) - 1) < 2 ^ (Zpos (digits2_pos mx) + d)).
  { rewrite Z.pow_add_r by lia. assert (0 < 2 ^ d) by (apply Z.pow_pos_nonneg; lia). nia. }
  apply Z.pow_lt_mono_r_iff in H; lia.
Qed.

(** Rounding a positive integer that is at most a canonical number gives at
    most that number. *)
Lemma binary_round_aux_below (mz mx : positive) (ez ex : Z) :
  bounded prec emax mx ex = true ->
  ez <= ex ->
  Zpos mz <= Zpos mx * 2 ^ (ex - ez) ->
  SFleb (binary_round_aux prec emax false (Zpos mz) ez loc_Exact)
        (S754_finite false mx ex) = true.
Proof.
  intros Bx Hez Hle. unfold bounded in Bx. apply andb_prop in Bx. destruct Bx as [Cx Hmax].
  apply Z.leb_le in Hmax.
  destruct (canonical_digits _ _ Cx) as (Hemin & Hdx & Hnormal).
  pose proof (@digits_order_upper mx mz (ex - ez) ltac:(lia) Hle) as Hdigits.
  assert (Hfexp : fexp prec emax (Zpos (digits2_pos mx) + ex) = ex).
  { unfold canonical_mantissa in Cx. now apply Z.eqb_eq in Cx. }
  unfold binary_round_aux.
  (* the first shift *)
  pose proof (shr_exponent (shr_record_of_loc (Zpos mz) loc_Exact) ez
                (fexp prec emax (Zpos (digits2_pos mz) + ez) - ez)) as He1.
  destruct (@shr_located (Zpos mz) 1 (shr_record_of_loc (Zpos mz) loc_Exact) ez
              (fexp prec emax (Zpos (digits2_pos mz) + ez) - ez))
    as (k & Hk & Hsnd & Hloc).
  { apply located_exact. lia. }
  unfold shr_fexp. cbn [Zdigits2].
  destruct (shr (shr_record_of_loc (Zpos mz) loc_Exact) ez
              (fexp prec emax (Zpos (digits2_pos mz) + ez) - ez)) as [mrs1 e1].
  cbn [fst snd] in *. rewrite Z.mul_1_l in Hloc.
  destruct (round_nearest_even_located Hloc) as [Hm1 Hnear].
  set (m1 := round_nearest_even (shr_m mrs1) (loc_of_shr_record mrs1)) in *.
  assert (He1x : e1 <= ex) by (unfold fexp in *; lia).
  assert (H2k : 0 < 2 ^ k) by (apply Z.pow_pos_nonneg; lia).
  assert (Hvalue : m1 <= Zpos mx * 2 ^ (ex - e1)).
  { assert (Hsplit : 2 ^ (ex - ez) = 2 ^ (ex - e1) * 2 ^ k).
    { rewrite <- Z.pow_add_r by lia. f_equal. lia. }
    rewrite Hsplit in Hle.
    assert (2 * (m1 * 2 ^ k) < 2 * ((Zpos mx * 2 ^ (ex - e1) + 1) * 2 ^ k)) by nia.
    nia. }
  (* the second shift *)
  destruct m1 as [ | p1 | p1]; [ | | lia].
  - cbn [Zdigits2].
    destruct (@shr_located 0 1 (shr_record_of_loc 0 loc_Exact) e1
                (fexp prec emax (0 + e1) - e1)) as (k2 & Hk2 & _ & Hloc2).
    { apply located_exact. lia. }
    destruct (shr (shr_record_of_loc 0 loc_Exact) e1 (fexp prec emax (0 + e1) - e1))
      as [mrs2 e2]. cbn [fst snd] in *.
    destruct Hloc2 as (Hm2 & HR & _).
    assert (0 < 1 * 2 ^ k2) by (rewrite Z.mul_1_l; apply Z.pow_pos_nonneg; lia).
    assert (shr_m mrs2 = 0) by nia.
    rewrite H0. reflexivity.
  - destruct (shr_fexp_floor p1 e1) as (He2 & Hm2 & Hfloor2).
    unfold shr_fexp in He2, Hm2, Hfloor2. cbn [Zdigits2] in *.
    destruct (shr (shr_record_of_loc (Zpos p1) loc_Exact) e1
                (fexp prec emax (Zpos (digits2_pos p1) + e1) - e1)) as [mrs2 e2].
    cbn [fst snd] in *.
    set (k2 := Z.max (fexp prec emax (Zpos (digits2_pos p1) + e1) - e1) 0) in *.
    pose proof (@digits_order_upper mx p1 (ex - e1) ltac:(lia) Hvalue) as Hdigits1.
    assert (He2x : e2 <= ex) by (subst k2; unfold fexp in *; lia).
    assert (H2k2 : 0 < 2 ^ k2) by (apply Z.pow_pos_nonneg; lia).
    destruct (shr_m mrs2) as [ | p2 | p2]; [reflexivity | | lia].
    replace (e2 <=? emax - prec) with true by (symmetry; apply Z.leb_le; lia).
    unfold SFleb, SFcompare.
    destruct (e2 ?= ex) eqn:Hcmp.
    + apply Z.compare_eq_iff in Hcmp.
      assert (k2 = ex - e1) by lia.
      assert (Zpos p2 <= Zpos mx).
      { apply Z.mul_le_mono_pos_r with (p := 2 ^ k2); [exact H2k2 | ].
        replace (2 ^ k2) with (2 ^ (ex - e1)) at 2 by (f_equal; lia). lia. }
      destruct (Pos.compare_cont Eq p2 mx) eqn:Hc; try reflexivity.
      apply Pos.compare_gt_iff in Hc. lia.
    + reflexivity.
    + apply Z.compare_gt_iff in Hcmp. lia.
Qed.

Lemma binary_round_below (n mx : positive) (e ex : Z) :
  bounded prec emax mx ex = true ->
  e <= ex ->
  Zpos n <= Zpos mx * 2 ^ (ex - e) ->
  SFleb (binary_round prec emax false n e) (S754_finite false mx ex) = true.
Proof.
  intros Bx He Hle. unfold binary_round.
  destruct (shl_align_spec n e (fexp prec emax (Zpos (digits2_pos n) + e))) as [Hez Hmz].
  destruct (shl_align n e (fexp prec emax (Zpos (digits2_pos n) + e))) as [mz ez].
  cbn [fst snd] in *.
  apply binary_round_aux_below; [exact Bx | lia | ].
  rewrite Hmz. replace (ex - ez) with ((ex - e) + (e - ez)) by lia.
  rewrite Z.pow_add_r by lia.
  assert (0 < 2 ^ (e - ez)) by (apply Z.pow_pos_nonneg; lia). nia.
Qed.

(** Subtracting a number that is not negative, and not above the other,
    never gives more. *)
Lemma SFsub_below (x y : spec_float) :
  valid_binary x = true -> valid_binary y = true ->
  SFnonneg y = true -> SFleb y x = true ->
  y <> S754_infinity false ->
  SFleb (SFsub prec emax x y) x = true.
Proof.
  intros Vx Vy Hy Hle Hfin.
  destruct (SFnonneg_inv y Hy) as [[sy ->] | [-> | (my & ey & ->)]]; [ | congruence | ].
  - destruct x as [sx | [ | ] | | [ | ] mx ex]; simpl in Hle; try discriminate;
      try reflexivity.
    + destruct sx, sy; reflexivity.
    + cbn. rewrite Z.compare_refl, Pos.compare_cont_refl. reflexivity.
  - destruct x as [sx | [ | ] | | [ | ] mx ex]; simpl in Hle; try discriminate;
      try reflexivity.
    simpl in Vx, Vy. pose proof Vx as Bx. unfold bounded in Vx, Vy.
    apply andb_prop in Vx, Vy. destruct Vx as [Cx _], Vy as [Cy _].
    unfold SFsub, cond_Zopp.
    change (IntDef.Z.min ex ey) with (Z.min ex ey).
    assert (Hord : Zpos (fst (shl_align my ey (Z.min ex ey)))
                   <= Zpos (fst (shl_align mx ex (Z.min ex ey)))).
    { rewrite !shl_align_value by lia.
      unfold SFleb in Hle; simpl in Hle.
      destruct (ey ?= ex) eqn:Hcmp.
      - apply Z.compare_eq_iff in Hcmp. subst ey.
        rewrite Z.min_id, Z.sub_diag, Z.pow_0_r.
        destruct (Pos.compare_cont Eq my mx) eqn:Hc; try discriminate.
        + apply Pos.compare_eq in Hc. subst. lia.
        + change (my < mx)%positive in Hc. lia.
      - change (ey < ex) in Hcmp.
        pose proof (@aligned_order mx my ex ey Cx Cy Hcmp).
        rewrite Z.min_r by lia. rewrite Z.sub_diag, Z.pow_0_r. lia.
      - discriminate. }
    pose proof (@shl_align_value mx ex (Z.min ex ey) ltac:(lia)) as Hx'.
    destruct (Zpos (fst (shl_align mx ex (Z.min ex ey)))
              - Zpos (fst (shl_align my ey (Z.min ex ey)))) as [ | n | n] eqn:Hn;
      unfold binary_normalize.
    + reflexivity.
    + apply binary_round_below; [exact Bx | lia | lia].
    + lia.
Qed.

End Monotone.

Section PrimMonotone.

Local Open Scope float_scope.

Lemma leb_add_r (x y : float) :
  PyFloat.nonneg x = true -> PyFloat.nonneg y = true -> (y <=? x + y) = true.
Proof.
  rewrite !nonneg_spec, leb_spec, add_spec.
  apply SFadd_above; apply Prim2SF_valid.
Qed.

Lemma leb_add_l (x y : float) :
  PyFloat.nonneg x = true -> PyFloat.nonneg y = true -> (x <=? x + y) = true.
Proof.
  rewrite !nonneg_spec, leb_spec, add_spec.
  apply SFadd_above_l; apply Prim2SF_valid.
Qed.

Lemma leb_sub (x y : float) :
  PyFloat.nonneg y = true -> (y <=? x) = true -> (y <? infinity) = true ->
  (x - y <=? x) = true.
Proof.
  intros Hy Hle Hfin. apply below_infinity_spec in Hfin.
  rewrite nonneg_spec in Hy. rewrite leb_spec in Hle. rewrite leb_spec, sub_spec.
  apply SFsub_below; auto using Prim2SF_valid. apply Hfin.
Qed.

Lemma nonneg_leb_refl (x : float) : PyFloat.nonneg x = true -> (x <=? x) = true.
Proof.
  rewrite nonneg_spec, leb_spec. intros Hx.
  destruct (SFnonneg_inv _ Hx) as [[s ->] | [-> | (m & e & ->)]]; try reflexivity.
  cbn. rewrite Z.compare_refl, Pos.compare_cont_refl. reflexivity.
Qed.

Lemma pos_not_zero (x : float) : (0 <? x) = true -> (x =? 0) = false.
Proof.
  rewrite ltb_spec, eqb_spec. change (Prim2SF 0) with (S754_zero false).
  destruct (Prim2SF x) as [s | [ | ] | | [ | ] m e]; cbn; congruence.
Qed.

End PrimMonotone.


(** ** The trading methods *)

(** Unfolds a method call down to the tests on its inputs. *)
Ltac exec :=
  unfold buy_btc, sell_btc, reset_trader, view_total_pl, view_transaction_history,
    view_cash_balance, view_btc_balance,
    on_message, record_transaction, save_data, save_history, py_float_str,
    try_except, bind, ret, raise, lift, print, attr, assign,
    get_current_btc_price, PyFloat.truediv;
  simpl.

(** Follows every test of an unfolded method. *)
Ltac branches :=
  repeat match goal with
         | |- context [match ?f ?l with Some _ => _ | None => _ end] =>
             destruct (f l); simpl
         | |- context [if ?b then _ else _] => destruct b; simpl
         end.

(** Decides the outcome of the two writes. *)
Ltac writes e :=
  destruct (data_file_writable e), (history_file_writable e); simpl.

Section Engine.

Local Open Scope float_scope.

Variable float_of_str : string -> option float.



(** C3: a buy request with [usdAmount <= 0] reports InvalidAmount; otherwise,
    with [usdAmount > cashBalance], it reports InsufficientCash; in both
    cases the trader (balances, history, files) is unchanged, whatever the
    price cell holds. *)
Theorem C3_buy_rejections (e : env) (line : string) (amount : float) (t : trader) :
  float_of_str line = Some amount ->
  ((amount <=? 0) = true ->
     buy_btc float_of_str e line t = (Normal tt, t, [InvalidAmount]))
  /\ ((amount <=? 0) = false -> (cash_balance t <? amount) = true ->
       buy_btc float_of_str e line t = (Normal tt, t, [InsufficientCash])).
Proof.
  intros Hline. split.
  - intros Hneg. exec. rewrite Hline; simpl. rewrite Hneg. reflexivity.
  - intros Hpos Hcash. exec. rewrite Hline; simpl. rewrite Hpos, Hcash. reflexivity.
Qed.

(** C4 (as amended): for a sale in amount mode with [usdAmount > 0] and an
    available price [p] that is not zero: with an asset balance equal to zero
    the call reports NothingToSell; with a non-zero asset balance and
    [usdAmount / p > assetBalance] it reports InsufficientAsset; in both
    cases nothing is mutated.  Otherwise the asset balance decreases by
    [usdAmount / p], the cash balance increases by [usdAmount] and one sell
    transaction is recorded. *)
Theorem C4_sell_amount (e : env) (line : string) (amount p : float) (t : trader) :
  float_of_str line = Some amount ->
  (0 <? amount) = true ->
  latest_btc_price e = Some p ->
  (p =? 0) = false ->
  ((btc_balance t =? 0) = true ->
     sell_btc float_of_str e "2" line t = (Normal tt, t, [NothingToSell]))
  /\ ((btc_balance t =? 0) = false -> (btc_balance t <? amount / p) = true ->
       sell_btc float_of_str e "2" line t = (Normal tt, t, [InsufficientAsset]))
  /\ ((btc_balance t =? 0) = false -> (btc_balance t <? amount / p) = false ->
       exists t' out,
         sell_btc float_of_str e "2" line t
           = (Normal tt, t', Sold (amount / p) p amount :: out)
         /\ btc_balance t' = btc_balance t - amount / p
         /\ cash_balance t' = cash_balance t + amount
         /\ transaction_history t' =
              transaction_history t ++ [entry e sell amount (amount / p) p]).
Proof.
  intros Hline Hpos Hprice Hp. apply ltb_leb_false in Hpos. repeat split.
  - intros Hzero. exec. rewrite Hzero. reflexivity.
  - intros Hheld Hmore. exec. rewrite Hheld, Hline; simpl.
    rewrite Hpos, Hprice, Hp; simpl. rewrite Hmore. reflexivity.
  - intros Hheld Hless. exec. rewrite Hheld, Hline; simpl.
    rewrite Hpos, Hprice, Hp; simpl. rewrite Hless; simpl.
    writes e; do 2 eexists; (split; [reflexivity | auto]).
Qed.

(** C5 (as amended): with a price [p] available, a sale in sell-all mode
    ends with an asset balance equal to zero; when the prior asset balance is
    zero it reports NothingToSell and changes nothing, and otherwise the
    asset balance is set to [0.0], the cash balance increases by
    [assetBalance * p] and one sell transaction is recorded. *)
Theorem C5_sell_all (e : env) (line : string) (p : float) (t : trader) :
  latest_btc_price e = Some p ->
  exists t' out,
    sell_btc float_of_str e "1" line t = (Normal tt, t', out)
    /\ (btc_balance t' =? 0) = true
    /\ ((btc_balance t =? 0) = true -> t' = t /\ out = [NothingToSell])
    /\ ((btc_balance t =? 0) = false ->
         btc_balance t' = 0
         /\ cash_balance t' = cash_balance t + btc_balance t * p
         /\ hd_error out = Some (SoldAll (btc_balance t) p (btc_balance t * p))
         /\ transaction_history t' =
              transaction_history t
                ++ [entry e sell (btc_balance t * p) (btc_balance t) p]).
Proof.
  intros Hprice. exec. rewrite Hprice.
  destruct (btc_balance t =? 0) eqn:Hheld; simpl.
  - exists t, [NothingToSell]. repeat split; congruence.
  - writes e; do 2 eexists; (split; [reflexivity | ]);
      (split; [reflexivity | ]); (split; [discriminate | ]);
      intros _; repeat split.
Qed.


(** Non-negative balances survive every method call made with a positive
    price in the cell, provided that the amount typed, if it is a number, is
    below infinity (so not NaN), that the asset balance is finite and that
    [starting_cash] is not negative. *)
Theorem nonnegative_balances_preserved
    (e : env) (choice line confirm : string) (p : float) (t : trader) :
  balances_nonneg t ->
  PyFloat.nonneg (starting_cash t) = true ->
  (btc_balance t <? infinity) = true ->
  latest_btc_price e = Some p ->
  (0 <? p) = true ->
  (forall amount, float_of_str line = Some amount -> (amount <? infinity) = true) ->
  balances_nonneg (state_after (buy_btc float_of_str e line t))
  /\ balances_nonneg (state_after (sell_btc float_of_str e choice line t))
  /\ balances_nonneg (state_after (reset_trader e confirm t)).
Proof.
  intros [Hcash Hbtc] Hstart Hfinite Hprice Hp Hamount.
  unfold balances_nonneg, state_after. repeat split.
  - (* buy_btc, cash *)
    exec. rewrite Hprice.
    destruct (float_of_str line) as [a | ] eqn:Hline; simpl; auto.
    specialize (Hamount a eq_refl).
    destruct (a <=? 0) eqn:Ha; simpl; auto.
    destruct (cash_balance t <? a) eqn:Hc; simpl; auto.
    destruct (p =? 0); simpl; auto.
    pose proof (not_leb_zero_pos Hamount Ha) as Hpos.
    writes e; apply sub_nonneg; auto using pos_nonneg, not_ltb_leb.
  - (* buy_btc, asset *)
    exec. rewrite Hprice.
    destruct (float_of_str line) as [a | ] eqn:Hline; simpl; auto.
    specialize (Hamount a eq_refl).
    destruct (a <=? 0) eqn:Ha; simpl; auto.
    destruct (cash_balance t <? a) eqn:Hc; simpl; auto.
    destruct (p =? 0); simpl; auto.
    pose proof (not_leb_zero_pos Hamount Ha) as Hpos.
    writes e; apply add_nonneg; auto using div_nonneg.
  - (* sell_btc, cash *)
    exec. rewrite Hprice.
    destruct (btc_balance t =? 0) eqn:Hheld; simpl; auto.
    destruct (String.eqb choice "1"); simpl.
    { writes e; apply add_nonneg; auto using mul_nonneg, nonneg_not_zero_pos. }
    destruct (String.eqb choice "2"); simpl; auto.
    destruct (float_of_str line) as [a | ] eqn:Hline; simpl; auto.
    specialize (Hamount a eq_refl).
    destruct (a <=? 0) eqn:Ha; simpl; auto.
    destruct (p =? 0); simpl; auto.
    destruct (btc_balance t <? a / p); simpl; auto.
    pose proof (not_leb_zero_pos Hamount Ha) as Hpos.
    writes e; apply add_nonneg; auto using pos_nonneg.
  - (* sell_btc, asset *)
    exec. rewrite Hprice.
    destruct (btc_balance t =? 0) eqn:Hheld; simpl; auto.
    destruct (String.eqb choice "1"); simpl.
    { writes e; reflexivity. }
    destruct (String.eqb choice "2"); simpl; auto.
    destruct (float_of_str line) as [a | ] eqn:Hline; simpl; auto.
    specialize (Hamount a eq_refl).
    destruct (a <=? 0) eqn:Ha; simpl; auto.
    destruct (p =? 0); simpl; auto.
    destruct (btc_balance t <? a / p) eqn:Hq; simpl; auto.
    pose proof (not_leb_zero_pos Hamount Ha) as Hpos.
    pose proof (div_nonneg Hpos Hp Hamount) as Hquot.
    pose proof (not_ltb_leb Hbtc Hquot Hq) as Hle.
    writes e; apply sub_nonneg; eauto using leb_below_infinity.
  - (* reset_trader, cash *)
    exec. destruct (String.eqb confirm "y"); simpl; auto. writes e; exact Hstart.
  - (* reset_trader, asset *)
    exec. destruct (String.eqb confirm "y"); simpl; auto. writes e; reflexivity.
Qed.

(** With the price [0.0] (or [-0.0]) in the cell, a request that passes the
    checks made before the division raises [ZeroDivisionError] out of
    [buy_btc] and out of [sell_btc] in amount mode; nothing is mutated. *)
Theorem zero_price_raises (e : env) (line : string) (amount p : float) (t : trader) :
  float_of_str line = Some amount ->
  (amount <=? 0) = false ->
  latest_btc_price e = Some p ->
  (p =? 0) = true ->
  ((cash_balance t <? amount) = false ->
     buy_btc float_of_str e line t = (Raised ZeroDivisionError, t, []))
  /\ ((btc_balance t =? 0) = false ->
       sell_btc float_of_str e "2" line t = (Raised ZeroDivisionError, t, [])).
Proof.
  intros Hline Ha Hprice Hp. split.
  - intros Hcash. exec. rewrite Hline; simpl. rewrite Ha, Hcash, Hprice, Hp. reflexivity.
  - intros Hheld. exec. rewrite Hheld, Hline; simpl. rewrite Ha, Hprice, Hp. reflexivity.
Qed.

(** The amount NaN passes both checks of [buy_btc] in every state: at any
    price that is not zero the purchase is applied, both balances become NaN
    and a transaction with NaN amounts is recorded. *)
Theorem nan_amount_accepted (e : env) (line : string) (p : float) (t : trader) :
  float_of_str line = Some nan ->
  latest_btc_price e = Some p ->
  (p =? 0) = false ->
  exists t' out,
    buy_btc float_of_str e line t = (Normal tt, t', Bought nan p nan :: out)
    /\ cash_balance t' = nan
    /\ btc_balance t' = nan
    /\ transaction_history t' = transaction_history t ++ [entry e buy nan nan p].
Proof.
  intros Hline Hprice Hp. exec. rewrite Hline; simpl.
  change (nan <=? 0) with false. rewrite ltb_nan_r, Hprice, Hp; simpl.
  rewrite div_nan_l, sub_nan_r, add_nan_r.
  writes e; do 2 eexists; (split; [reflexivity | auto]).
Qed.

(** Trades and resets never touch [starting_cash] and [starting_total]. *)
Theorem baseline_never_mutated (e : env) (choice line confirm : string) (t : trader) :
  let unchanged t' :=
    starting_cash t' = starting_cash t /\ starting_total t' = starting_total t in
  unchanged (state_after (buy_btc float_of_str e line t))
  /\ unchanged (state_after (sell_btc float_of_str e choice line t))
  /\ unchanged (state_after (reset_trader e confirm t)).
Proof.
  unfold state_after. repeat split; exec; branches; auto.
Qed.

(** Write-through: when both files can be written, a call of [buy_btc],
    [sell_btc] or [reset_trader] either leaves the trader as it was or leaves
    both files holding the balances and the history of the object. *)
Theorem write_through (e : env) (choice line confirm : string) (t : trader) :
  data_file_writable e = true ->
  history_file_writable e = true ->
  let settled t' := t' = t \/ persisted t' in
  settled (state_after (buy_btc float_of_str e line t))
  /\ settled (state_after (sell_btc float_of_str e choice line t))
  /\ settled (state_after (reset_trader e confirm t)).
Proof.
  intros Hdata Hhistory. unfold state_after, persisted, snapshot.
  repeat split; exec; rewrite ?Hdata, ?Hhistory; branches; auto.
Qed.

End Engine.

(** The valuation: without a price it reports PriceUnavailable; with a price
    and a [starting_total] that is not zero it prints the total
    [cash + btc * price], the profit [total - starting_total] and its
    percentage; with a [starting_total] equal to zero the percentage raises
    [ZeroDivisionError].  The trader is never changed. *)
Theorem valuation_figures (e : env) (t : trader) :
  (latest_btc_price e = None ->
     view_total_pl e t = (Normal tt, t, [PriceUnavailable]))
  /\ (forall p, latest_btc_price e = Some p ->
       ((starting_total t =? 0) = false ->
          let total := cash_balance t + btc_balance t * p in
          view_total_pl e t =
            (Normal tt, t,
             [Valuation p (cash_balance t) (btc_balance t) total
                (total - starting_total t)
                ((total - starting_total t) / starting_total t * 100)]))
       /\ ((starting_total t =? 0) = true ->
            view_total_pl e t = (Raised ZeroDivisionError, t, [])))%float.
Proof.
  split; [ | intros p Hp; split]; intros H; exec; rewrite ?Hp, H; reflexivity.
Qed.


(** C8: from every prior state a confirmed reset ends normally with the cash
    balance equal to [starting_cash], the asset balance [0.0] and an empty
    history, and writes both files: each write that the file system accepts
    stores the new balances, respectively the empty history. *)
Theorem C8_reset_restores (e : env) (t : trader) :
  exists t' out,
    reset_trader e "y" t = (Normal tt, t', out)
    /\ cash_balance t' = starting_cash t
    /\ btc_balance t' = 0%float
    /\ transaction_history t' = []
    /\ (data_file_writable e = true ->
         data_file t' = Some {| saved_cash_balance := starting_cash t;
                                saved_btc_balance := 0;
                                saved_starting_total := starting_total t |})
    /\ (history_file_writable e = true -> history_file t' = Some []).
Proof.
  exec. writes e; do 2 eexists; (split; [reflexivity | ]);
    repeat split; auto; discriminate.
Qed.

(** ** The feed handler *)

Section Feed.

Local Open Scope float_scope.

Variable float_of_str : string -> option float.
Variable json_loads : string -> option json.

Lemma first_entry_getitem (c x : json) :
  first_entry c x -> getitem_index c 0 = Normal x.
Proof. destruct 1; reflexivity. Qed.

Lemma getitem_first_entry (c x : json) :
  getitem_index c 0 = Normal x -> first_entry c x.
Proof.
  destruct c as [ | b | n | f | str | l | kv]; simpl; try discriminate.
  - destruct str as [ | ch rest]; simpl; [discriminate | ].
    intros H. injection H as <-. constructor.
  - destruct l as [ | y rest]; simpl; [discriminate | ].
    intros H. injection H as <-. constructor.
Qed.

(** The handler in one equation: what it does with the result of decoding
    and of evaluating [float(data[1]['c'][0])]. *)
Lemma on_message_eval (message : string) (latest : option float) :
  on_message float_of_str json_loads message latest =
    match json_loads message with
    | None => (Normal tt, latest, [ErrorParsingMessage ValueError])
    | Some data =>
        if is_list_of_two data then
          match ticker_price float_of_str data with
          | Normal p => (Normal tt, Some p, [])
          | Raised ex =>
              if is_feed_error ex
              then (Normal tt, latest, [ErrorParsingMessage ex])
              else (Raised ex, latest, [])
          end
        else (Normal tt, latest, [])
    end.
Proof.
  exec. destruct (json_loads message) as [data | ]; simpl; [ | reflexivity].
  destruct (is_list_of_two data) eqn:Hshape; simpl; [ | reflexivity].
  unfold ticker_price, and_then.
  destruct (getitem_index data 1) as [ticker_info | ex1]; simpl;
    [ | destruct (is_feed_error ex1); reflexivity].
  destruct (getitem_key ticker_info "c") as [c | ex2]; simpl;
    [ | destruct (is_feed_error ex2); reflexivity].
  destruct (getitem_index c 0) as [first | ex3]; simpl;
    [ | destruct (is_feed_error ex3); reflexivity].
  destruct (py_float float_of_str first) as [p | ex4]; simpl;
    [ reflexivity | destruct (is_feed_error ex4); reflexivity].
Qed.

Lemma carries_ticker_price (data : json) (p : float) :
  carries_price float_of_str data p -> ticker_price float_of_str data = Normal p.
Proof.
  intros [head items rest c x q Hc Hx Hp]. unfold ticker_price; simpl.
  rewrite Hc; simpl. rewrite (first_entry_getitem Hx); simpl. exact Hp.
Qed.

Lemma ticker_price_carries (data : json) (p : float) :
  ticker_price float_of_str data = Normal p -> carries_price float_of_str data p.
Proof.
  unfold ticker_price.
  destruct data as [ | b | n | f | str | l | kv]; simpl; try discriminate.
  - destruct (String.get 1 str); simpl; discriminate.
  - destruct l as [ | head [ | second rest]]; simpl; try discriminate.
    destruct second as [ | b | n | f | str | l | items]; simpl; try discriminate.
    destruct (dict_get items "c") as [c | ] eqn:Hc; simpl; [ | discriminate].
    destruct (getitem_index c 0) as [first | ex] eqn:Hfirst; simpl; [ | discriminate].
    intros Hp. apply getitem_first_entry in Hfirst.
    now apply ticker with (c := c) (x := first).
Qed.

Lemma carries_list_of_two (data : json) (p : float) :
  carries_price float_of_str data p -> is_list_of_two data = true.
Proof. intros [head items rest c x q _ _ _]. reflexivity. Qed.





Lemma discarded_feed_error (data : json) :
  discarded float_of_str (Some data) ->
  is_list_of_two data = true ->
  exists ex, ticker_price float_of_str data = Raised ex /\ is_feed_error ex = true.
Proof.
  intros Hdis Hshape.
  inversion Hdis as [ | data' Hshort Hdata
                      | head items rest Hc Hdata
                      | head items rest c Hc Hempty Hdata
                      | head items rest c str Hc Hx Hnum Hdata ]; subst.
  - congruence.
  - exists KeyError. unfold ticker_price; simpl. now rewrite Hc.
  - unfold ticker_price; simpl. rewrite Hc; simpl.
    destruct Hempty as [-> | [-> | [kv ->]]]; simpl; eexists; split; reflexivity.
  - exists ValueError. unfold ticker_price; simpl. rewrite Hc; simpl.
    rewrite (first_entry_getitem Hx); simpl. now rewrite Hnum.
Qed.

(** C7 (as amended): when the message decodes to a list of at least two
    elements whose second element is an object with a field ['c'] whose first
    entry converts under [float] to [p] (a numeric string as in a Kraken
    tick, or a JSON number or boolean), the latest price is replaced by [p];
    when the message is not JSON, does not decode to such a list, lacks the
    field ['c'], has an empty one, or has a first entry that is a string but
    no number, the latest price is unchanged and no exception leaves the
    handler. *)
Theorem C7_feed_updates_or_discards (message : string) (latest : option float) :
  (forall data p,
      json_loads message = Some data ->
      carries_price float_of_str data p ->
      on_message float_of_str json_loads message latest = (Normal tt, Some p, []))
  /\ (discarded float_of_str (json_loads message) ->
       exists out,
         on_message float_of_str json_loads message latest = (Normal tt, latest, out)).
Proof.
  rewrite on_message_eval. split.
  - intros data p Hdata Hshape. rewrite Hdata.
    rewrite (carries_list_of_two Hshape), (carries_ticker_price Hshape). reflexivity.
  - intros Hdis. destruct (json_loads message) as [data | ]; [ | eexists; reflexivity].
    destruct (is_list_of_two data) eqn:Hshape; [ | eexists; reflexivity].
    destruct (discarded_feed_error Hdis Hshape) as (ex & -> & ->).
    eexists; reflexivity.
Qed.


(** Once a price is known it stays known: the handler never empties the
    price cell. *)
Theorem price_stays_available (message : string) (known : float) :
  exists p,
    state_after (on_message float_of_str json_loads message (Some known)) = Some p.
Proof.
  rewrite on_message_eval. unfold state_after.
  destruct (json_loads message) as [data | ]; [ | eexists; reflexivity].
  destruct (is_list_of_two data); [ | eexists; reflexivity].
  destruct (ticker_price float_of_str data) as [p | ex]; [eexists; reflexivity | ].
  destruct (is_feed_error ex); eexists; reflexivity.
Qed.

End Feed.

(** ** Sessions: the menu loop *)

Section Sessions.

Local Open Scope float_scope.

Variable float_of_str : string -> option float.

Lemma preserves_bind {A B} (P : trader -> Prop) (c : M trader A) (k : A -> M trader B) :
  preserves P c -> (forall a, preserves P (k a)) -> preserves P (bind c k).
Proof.
  unfold preserves, state_after, bind. intros Hc Hk t Ht.
  specialize (Hc t Ht). destruct (c t) as [[[a | ex] t1] out1]; simpl in *.
  - specialize (Hk a t1 Hc). destruct (k a t1) as [[r t2] out2]. exact Hk.
  - exact Hc.
Qed.

Lemma preserves_print (P : trader -> Prop) (m : message) : preserves P (print m).
Proof. intros t Ht. exact Ht. Qed.

Lemma view_history_unchanged (t : trader) :
  state_after (view_transaction_history t) = t.
Proof. unfold state_after. exec. destruct (transaction_history t); reflexivity. Qed.

(** Unfolds a call and follows its tests, for a property of the final state. *)
Ltac frame :=
  intros t Ht; rewrite ?view_history_unchanged; unfold state_after; exec; branches.

(** The baseline survives every method. *)
Lemma methods_keep_baseline (cash total : float) (e : env) (a b : string) :
  preserves (baseline cash total) (buy_btc float_of_str e a)
  /\ preserves (baseline cash total) (sell_btc float_of_str e a b)
  /\ preserves (baseline cash total) (reset_trader e a)
  /\ preserves (baseline cash total) (view_total_pl e)
  /\ preserves (baseline cash total) view_transaction_history
  /\ preserves (baseline cash total) view_cash_balance
  /\ preserves (baseline cash total) (view_btc_balance e).
Proof. unfold baseline. repeat apply conj; frame; exact Ht. Qed.

(** Both files stay in step with the object when they can be written. *)
Lemma methods_keep_persisted (e : env) (a b : string) :
  data_file_writable e = true -> history_file_writable e = true ->
  preserves persisted (buy_btc float_of_str e a)
  /\ preserves persisted (sell_btc float_of_str e a b)
  /\ preserves persisted (reset_trader e a)
  /\ preserves persisted (view_total_pl e)
  /\ preserves persisted view_transaction_history
  /\ preserves persisted view_cash_balance
  /\ preserves persisted (view_btc_balance e).
Proof.
  intros Hdata Hhistory. unfold persisted, snapshot.
  repeat apply conj; intros t Ht; rewrite ?view_history_unchanged;
    unfold state_after; exec; rewrite ?Hdata, ?Hhistory; branches; auto.
Qed.

(** Trades and views only ever add to the history. *)
Lemma methods_extend_history (h : list transaction) (e : env) (a b : string) :
  preserves (extends h) (buy_btc float_of_str e a)
  /\ preserves (extends h) (sell_btc float_of_str e a b)
  /\ (a <> "y"%string -> preserves (extends h) (reset_trader e a))
  /\ preserves (extends h) (view_total_pl e)
  /\ preserves (extends h) view_transaction_history
  /\ preserves (extends h) view_cash_balance
  /\ preserves (extends h) (view_btc_balance e).
Proof.
  assert (Hgrow : forall t txn, extends h t ->
             exists added, transaction_history t ++ [txn] = h ++ added).
  { intros t txn [added Hadded]. exists (added ++ [txn]).
    now rewrite Hadded, app_assoc. }
  unfold extends in *.
  apply conj; [frame; auto | ]. apply conj; [frame; auto | ].
  apply conj; [ | repeat apply conj; frame; auto ].
  intros Hno t Ht. unfold state_after. exec.
  destruct (String.eqb_spec a "y"); [contradiction | exact Ht].
Qed.

Lemma dispatch_keeps_baseline (cash total : float) (tn : turn) :
  preserves (baseline cash total) (dispatch float_of_str tn).
Proof.
  destruct (methods_keep_baseline cash total (world tn) (first_answer tn) (second_answer tn))
    as (Hbuy & Hsell & Hreset & Hpl & Hhistory & Hcash & Hbtc).
  unfold dispatch.
  repeat match goal with
         | |- context [String.eqb ?x ?y] => destruct (String.eqb x y)
         end; auto using preserves_print.
Qed.

Lemma dispatch_keeps_persisted (tn : turn) :
  writable tn -> preserves persisted (dispatch float_of_str tn).
Proof.
  intros [Hdata Hhistory].
  destruct (@methods_keep_persisted (world tn) (first_answer tn) (second_answer tn)
              Hdata Hhistory)
    as (Hbuy & Hsell & Hreset & Hpl & Hhist & Hcash & Hbtc).
  unfold dispatch.
  repeat match goal with
         | |- context [String.eqb ?x ?y] => destruct (String.eqb x y)
         end; auto using preserves_print.
Qed.

Lemma dispatch_extends_history (h : list transaction) (tn : turn) :
  keeps_history tn -> preserves (extends h) (dispatch float_of_str tn).
Proof.
  intros Hkeep.
  destruct (methods_extend_history h (world tn) (first_answer tn) (second_answer tn))
    as (Hbuy & Hsell & Hreset & Hpl & Hhist & Hcash & Hbtc).
  unfold dispatch, keeps_history in *.
  repeat match goal with
         | |- context [String.eqb ?x ?y] => destruct (String.eqb_spec x y)
         end; auto using preserves_print.
Qed.

(** Over a whole session the baseline [starting_cash], [starting_total] is
    never mutated. *)
Theorem session_keeps_baseline (turns : list turn) (t : trader) :
  baseline (starting_cash t) (starting_total t)
    (state_after (main_loop float_of_str turns t)).
Proof.
  assert (H : preserves (baseline (starting_cash t) (starting_total t))
                (main_loop float_of_str turns)).
  { induction turns as [ | tn rest IH]; cbn [main_loop].
    - intros t' Ht'. exact Ht'.
    - destruct (String.eqb (choice tn) "8"); [apply preserves_print | ].
      apply preserves_bind; [apply dispatch_keeps_baseline | intros _; exact IH]. }
  apply H. split; reflexivity.
Qed.

(** Over a session without a confirmed reset the history is append-only:
    what was recorded before is a prefix of what is recorded after. *)
Theorem session_append_only (turns : list turn) (t : trader) :
  Forall keeps_history turns ->
  extends (transaction_history t) (state_after (main_loop float_of_str turns t)).
Proof.
  intros Hturns.
  assert (H : preserves (extends (transaction_history t)) (main_loop float_of_str turns)).
  { induction Hturns as [ | tn rest Hkeep _ IH]; cbn [main_loop].
    - intros t' Ht'. exact Ht'.
    - destruct (String.eqb (choice tn) "8"); [apply preserves_print | ].
      apply preserves_bind; [now apply dispatch_extends_history | intros _; exact IH]. }
  apply H. exists []. now rewrite app_nil_r.
Qed.

(** Over a session in which both files can always be written, files that
    hold the state of the object at the start hold it at the end, whatever
    was traded or reset in between. *)
Theorem session_write_through (turns : list turn) (t : trader) :
  Forall writable turns ->
  persisted t ->
  persisted (state_after (main_loop float_of_str turns t)).
Proof.
  intros Hturns.
  assert (H : preserves persisted (main_loop float_of_str turns)).
  { induction Hturns as [ | tn rest Hw _ IH]; cbn [main_loop].
    - intros t' Ht'. exact Ht'.
    - destruct (String.eqb (choice tn) "8"); [apply preserves_print | ].
      apply preserves_bind; [now apply dispatch_keeps_persisted | intros _; exact IH]. }
  apply H.
Qed.

End Sessions.

(** ** Rounds that raise, rounds that cannot write, and the last round *)

(** Follows every test of an unfolded method and keeps what it decided. *)
Ltac cases :=
  repeat match goal with
         | |- context [match ?f ?l with Some _ => _ | None => _ end] =>
             destruct (f l) eqn:?; simpl
         | |- context [if ?b then _ else _] => destruct b eqn:?; simpl
         end.

Section Rounds.

Local Open Scope float_scope.

Variable float_of_str : string -> option float.

Lemma main_loop_preserves (P : trader -> Prop) (turns : list turn) :
  Forall (fun tn => preserves P (dispatch float_of_str tn)) turns ->
  preserves P (main_loop float_of_str turns).
Proof.
  induction 1 as [ | tn rest Htn _ IH]; cbn [main_loop].
  - intros t Ht. exact Ht.
  - destruct (String.eqb (choice tn) "8"); [apply preserves_print | ].
    apply preserves_bind; [exact Htn | intros _; exact IH].
Qed.




(** The loop ends at the first round that chooses option 8: the rounds that
    would follow are not played. *)
Theorem quit_ends_session (before after : list turn) (tn : turn) (t : trader) :
  quits tn ->
  main_loop float_of_str (before ++ tn :: after) t
    = main_loop float_of_str (before ++ [tn]) t.
Proof.
  unfold quits. intros Hquit. revert t.
  induction before as [ | a rest IH]; intros t; cbn [app main_loop].
  - now rewrite Hquit.
  - destruct (String.eqb (choice a) "8"); [reflexivity | ].
    unfold bind. destruct (dispatch float_of_str a t) as [[[[] | ex] t1] out1];
      [now rewrite IH | reflexivity].
Qed.

(** A round does the same to the object whether or not the files can be
    written. *)
Lemma dispatch_in_memory (tn tn' : turn) (t t' : trader) :
  same_round tn tn' ->
  in_memory t = in_memory t' ->
  completion_of (dispatch float_of_str tn t) = completion_of (dispatch float_of_str tn' t')
  /\ in_memory (state_after (dispatch float_of_str tn t))
     = in_memory (state_after (dispatch float_of_str tn' t')).
Proof.
  destruct tn as [[price id now wd wh] c a b], tn' as [[price' id' now' wd' wh'] c' a' b'].
  destruct t as [sc st cash held h df hf], t' as [sc' st' cash' held' h' df' hf'].
  unfold same_round, same_inputs, in_memory; simpl.
  intros ((<- & <- & <-) & <- & <- & <-) Hsame. injection Hsame as <- <- <- <- <-.
  unfold dispatch, completion_of, state_after; simpl.
  destruct price as [p | ];
  repeat match goal with
         | |- context [String.eqb c ?y] => destruct (String.eqb c y)
         end; exec; cases; split; reflexivity.
Qed.

(** Over a whole session, whether the files can be written has no influence
    on how the session ends and on what the object holds at its end. *)
Theorem failed_writes_do_not_affect_trades (turns turns' : list turn) (t t' : trader) :
  Forall2 same_round turns turns' ->
  in_memory t = in_memory t' ->
  completion_of (main_loop float_of_str turns t)
    = completion_of (main_loop float_of_str turns' t')
  /\ in_memory (state_after (main_loop float_of_str turns t))
     = in_memory (state_after (main_loop float_of_str turns' t')).
Proof.
  intros Hrounds. revert t t'.
  induction Hrounds as [ | tn tn' rest rest' Hround _ IH]; intros t t' Hsame.
  - split; [reflexivity | exact Hsame].
  - cbn [main_loop].
    assert (Hchoice : choice tn = choice tn') by apply Hround. rewrite <- Hchoice.
    destruct (String.eqb (choice tn) "8"); [split; [reflexivity | exact Hsame] | ].
    destruct (dispatch_in_memory Hround Hsame) as [Hend Hstate].
    unfold completion_of, state_after, bind in *.
    destruct (dispatch float_of_str tn t) as [[[[] | ex] t1] out1],
             (dispatch float_of_str tn' t') as [[[[] | ex'] t1'] out1'];
      cbn [fst snd] in *; try discriminate Hend.
    + specialize (IH t1 t1' Hstate).
      destruct (main_loop float_of_str rest t1) as [[r t2] out2],
               (main_loop float_of_str rest' t1') as [[r' t2'] out2'].
      exact IH.
    + split; [exact Hend | exact Hstate].
Qed.


(** A trade can be undone at the same price.  After a purchase of an
    amount, the sale of the same amount is not refused for want of assets:
    unless the asset balance is still zero, it is applied.  After a sale of
    an amount, the purchase of the same amount is not refused for want of
    cash.  This holds for a positive price, an amount that is positive and
    below infinity, and balances that are not negative. *)
Theorem trade_can_be_undone (e e' : env) (line : string) (amount p : float) (t : trader) :
  float_of_str line = Some amount ->
  (0 <? amount) = true ->
  (amount <? infinity) = true ->
  latest_btc_price e = Some p ->
  latest_btc_price e' = Some p ->
  (0 <? p) = true ->
  ((amount <=? cash_balance t) = true ->
   PyFloat.nonneg (btc_balance t) = true ->
   let t1 := state_after (buy_btc float_of_str e line t) in
   (btc_balance t1 =? 0) = false ->
   exists t2 out,
     sell_btc float_of_str e' "2" line t1
       = (Normal tt, t2, Sold (amount / p) p amount :: out))
  /\ ((btc_balance t =? 0) = false ->
      (amount / p <=? btc_balance t) = true ->
      PyFloat.nonneg (cash_balance t) = true ->
      let t1 := state_after (sell_btc float_of_str e "2" line t) in
      exists t2 out,
        buy_btc float_of_str e' line t1
          = (Normal tt, t2, Bought (amount / p) p amount :: out)).
Proof.
  intros Hline Hpos Hfinite Hprice Hprice' Hp.
  pose proof (ltb_leb_false Hpos) as Ha.
  pose proof (pos_not_zero Hp) as Hp0.
  pose proof (div_nonneg Hpos Hp Hfinite) as Hquot.
  split.
  - intros Hcash Hbtc t1 Hheld.
    assert (Ht1 : btc_balance t1 = btc_balance t + amount / p).
    { subst t1. unfold state_after. exec. rewrite Hline; simpl.
      rewrite Ha, (leb_ltb_false Hcash), Hprice, Hp0; simpl. writes e; reflexivity. }
    pose proof (leb_ltb_false (leb_add_r Hbtc Hquot)) as Henough.
    rewrite <- Ht1 in Henough.
    exec. rewrite Hheld, Hline; simpl. rewrite Ha, Hprice', Hp0; simpl.
    rewrite Henough; simpl. writes e'; do 2 eexists; reflexivity.
  - intros Hheld Hasset Hcash t1.
    assert (Ht1 : cash_balance t1 = cash_balance t + amount).
    { subst t1. unfold state_after. exec. rewrite Hheld, Hline; simpl.
      rewrite Ha, Hprice, Hp0; simpl. rewrite (leb_ltb_false Hasset); simpl.
      writes e; reflexivity. }
    pose proof (leb_ltb_false (leb_add_r Hcash (pos_nonneg Hpos))) as Henough.
    rewrite <- Ht1 in Henough.
    exec. rewrite Hline; simpl. rewrite Ha, Henough, Hprice', Hp0; simpl.
    writes e'; do 2 eexists; reflexivity.
Qed.

(** Trades move the balances the right way, in the binary64 arithmetic of
    the program: with balances that are not negative, a finite asset
    balance and a positive price, a call of [buy_btc] never raises the cash
    balance and never lowers the asset balance, and a call of [sell_btc]
    never raises the asset balance and never lowers the cash balance. *)
Theorem trades_move_balances_the_right_way
    (e : env) (sub_choice line : string) (p : float) (t : trader) :
  balances_nonneg t ->
  (btc_balance t <? infinity) = true ->
  latest_btc_price e = Some p ->
  (0 <? p) = true ->
  (forall amount, float_of_str line = Some amount -> (amount <? infinity) = true) ->
  let bought := state_after (buy_btc float_of_str e line t) in
  let sold := state_after (sell_btc float_of_str e sub_choice line t) in
  (cash_balance bought <=? cash_balance t) = true
  /\ (btc_balance t <=? btc_balance bought) = true
  /\ (btc_balance sold <=? btc_balance t) = true
  /\ (cash_balance t <=? cash_balance sold) = true.
Proof.
  intros [Hcash Hbtc] Hfinite Hprice Hp Hamount bought sold. subst bought sold.
  pose proof (nonneg_leb_refl Hcash) as Hcash0.
  pose proof (nonneg_leb_refl Hbtc) as Hbtc0.
  unfold state_after. repeat apply conj.
  - exec. rewrite Hprice.
    destruct (float_of_str line) as [a | ] eqn:Hline; simpl; auto.
    specialize (Hamount a eq_refl).
    destruct (a <=? 0) eqn:Ha; simpl; auto.
    destruct (cash_balance t <? a) eqn:Hc; simpl; auto.
    destruct (p =? 0); simpl; auto.
    pose proof (not_leb_zero_pos Hamount Ha) as Hpos.
    writes e; apply leb_sub; auto using pos_nonneg, not_ltb_leb.
  - exec. rewrite Hprice.
    destruct (float_of_str line) as [a | ] eqn:Hline; simpl; auto.
    specialize (Hamount a eq_refl).
    destruct (a <=? 0) eqn:Ha; simpl; auto.
    destruct (cash_balance t <? a); simpl; auto.
    destruct (p =? 0); simpl; auto.
    pose proof (not_leb_zero_pos Hamount Ha) as Hpos.
    writes e; apply leb_add_l; auto using div_nonneg.
  - exec. rewrite Hprice.
    destruct (btc_balance t =? 0) eqn:Hheld; simpl; auto.
    destruct (String.eqb sub_choice "1"); simpl.
    { writes e; exact Hbtc. }
    destruct (String.eqb sub_choice "2"); simpl; auto.
    destruct (float_of_str line) as [a | ] eqn:Hline; simpl; auto.
    specialize (Hamount a eq_refl).
    destruct (a <=? 0) eqn:Ha; simpl; auto.
    destruct (p =? 0); simpl; auto.
    destruct (btc_balance t <? a / p) eqn:Hq; simpl; auto.
    pose proof (not_leb_zero_pos Hamount Ha) as Hpos.
    pose proof (div_nonneg Hpos Hp Hamount) as Hquot.
    pose proof (not_ltb_leb Hbtc Hquot Hq) as Hle.
    writes e; apply leb_sub; eauto using leb_below_infinity.
  - exec. rewrite Hprice.
    destruct (btc_balance t =? 0) eqn:Hheld; simpl; auto.
    destruct (String.eqb sub_choice "1"); simpl.
    { writes e; apply leb_add_l; auto using mul_nonneg, nonneg_not_zero_pos. }
    destruct (String.eqb sub_choice "2"); simpl; auto.
    destruct (float_of_str line) as [a | ] eqn:Hline; simpl; auto.
    specialize (Hamount a eq_refl).
    destruct (a <=? 0) eqn:Ha; simpl; auto.
    destruct (p =? 0); simpl; auto.
    destruct (btc_balance t <? a / p); simpl; auto.
    pose proof (not_leb_zero_pos Hamount Ha) as Hpos.
    writes e; apply leb_add_l; auto using pos_nonneg.
Qed.

(** After a sale of everything at an available price there is nothing left
    to sell: the next sale, in any mode and at any price, reports
    NothingToSell and changes nothing. *)
Theorem nothing_to_sell_after_selling_all
    (e e' : env) (sub_choice line line' : string) (p : float) (t : trader) :
  latest_btc_price e = Some p ->
  let t' := state_after (sell_btc float_of_str e "1" line t) in
  sell_btc float_of_str e' sub_choice line' t' = (Normal tt, t', [NothingToSell]).
Proof.
  intros Hprice t'.
  assert (Hsold : (btc_balance t' =? 0) = true).
  { subst t'. unfold state_after. exec. rewrite Hprice.
    destruct (btc_balance t =? 0) eqn:Hheld; simpl; [exact Hheld | ].
    writes e; reflexivity. }
  exec. rewrite Hsold. reflexivity.
Qed.

(** A confirmed reset leaves an account without assets and without
    history: the next sale reports NothingToSell, the history view reports
    that there are no transactions, and a second confirmed reset in the same
    surroundings changes nothing more. *)
Theorem reset_leaves_a_clean_account (e e' : env) (sub_choice line : string) (t : trader) :
  let t' := state_after (reset_trader e "y" t) in
  sell_btc float_of_str e' sub_choice line t' = (Normal tt, t', [NothingToSell])
  /\ view_transaction_history t' = (Normal tt, t', [NoTransactions])
  /\ state_after (reset_trader e "y" t') = t'.
Proof.
  intros t'. subst t'. unfold state_after. exec. writes e; repeat split.
Qed.

End Rounds.

(** ** The feed thread and the menu loop together *)

Section FeedRuns.

Local Open Scope float_scope.

Variable float_of_str : string -> option float.
Variable json_loads : string -> option json.

Lemma feed_app (first second : list string) (latest : option float) :
  feed float_of_str json_loads (first ++ second) latest
    = feed float_of_str json_loads second (feed float_of_str json_loads first latest).
Proof. apply fold_left_app. Qed.

Lemma feed_known (messages : list string) (known : float) :
  exists p, feed float_of_str json_loads messages (Some known) = Some p.
Proof.
  revert known. induction messages as [ | m rest IH]; intros known.
  - exists known. reflexivity.
  - cbn [feed fold_left]. rewrite on_message_eval.
    destruct (json_loads m) as [data | ]; [ | apply IH].
    destruct (is_list_of_two data); [ | apply IH].
    destruct (ticker_price float_of_str data) as [p | ex]; [apply IH | ].
    destruct (is_feed_error ex); apply IH.
Qed.

Lemma feed_silent (messages : list string) (latest : option float) :
  Forall (silent float_of_str json_loads) messages ->
  feed float_of_str json_loads messages latest = latest.
Proof.
  induction 1 as [ | m rest Hm _ IH]; [reflexivity | ].
  cbn [feed fold_left]. rewrite on_message_eval.
  destruct (json_loads m) as [data | ] eqn:Hdata; [ | exact IH].
  destruct (is_list_of_two data); [ | exact IH].
  destruct (ticker_price float_of_str data) as [p | ex] eqn:Hprice.
  - destruct (Hm data p Hdata). now apply ticker_price_carries.
  - destruct (is_feed_error ex); exact IH.
Qed.

(** After a burst of messages the price cell holds the price of the last
    message that carries one, whatever it held before and whatever the
    other messages are. *)
Theorem last_price_wins (before after : list string) (message : string)
    (data : json) (p : float) (latest : option float) :
  json_loads message = Some data ->
  carries_price float_of_str data p ->
  Forall (silent float_of_str json_loads) after ->
  feed float_of_str json_loads (before ++ message :: after) latest = Some p.
Proof.
  intros Hdata Hcarries Hafter. rewrite feed_app.
  change (feed float_of_str json_loads (message :: after) ?x)
    with (feed float_of_str json_loads after
            (snd (fst (on_message float_of_str json_loads message x)))).
  rewrite on_message_eval, Hdata, (carries_list_of_two Hcarries),
    (carries_ticker_price Hcarries). cbn [fst snd].
  now apply feed_silent.
Qed.

(** With a price in the cell, a round never reports that the price cannot
    be fetched. *)
Lemma dispatch_finds_price (tn : turn) (t : trader) (p : float) :
  latest_btc_price (world tn) = Some p ->
  ~ In PriceUnavailable (printed (dispatch float_of_str tn t)).
Proof.
  intros Hprice. unfold dispatch, printed.
  repeat match goal with
         | |- context [String.eqb (choice tn) ?y] => destruct (String.eqb (choice tn) y)
         end; exec; rewrite ?Hprice; branches;
    intros Hin; repeat destruct Hin as [Hin | Hin]; discriminate Hin || exact Hin.
Qed.

(** [main] starts the menu loop once the price cell holds a price.  From
    then on, whatever the feed sends between the rounds, no round reports
    that the price cannot be fetched. *)
Theorem price_never_unavailable_in_main
    (rounds : list (list string * turn)) (known : float) (t : trader) :
  fed float_of_str json_loads (Some known) rounds ->
  ~ In PriceUnavailable (printed (main_loop float_of_str (map snd rounds) t)).
Proof.
  revert known t. induction rounds as [ | [messages tn] rest IH]; intros known t Hfed.
  - intros [].
  - destruct Hfed as [Hcell Hrest]. cbn [map snd main_loop].
    destruct (String.eqb (choice tn) "8").
    { intros [Hin | []]. discriminate Hin. }
    destruct (feed_known messages known) as [p Hp]. rewrite Hp in Hcell, Hrest.
    pose proof (dispatch_finds_price tn t Hcell) as Hround.
    specialize (IH p). unfold printed, bind in *.
    destruct (dispatch float_of_str tn t) as [[[[] | ex] t1] out1]; cbn [snd] in *;
      [ | exact Hround].
    specialize (IH t1 Hrest).
    destruct (main_loop float_of_str (map snd rest) t1) as [[r t2] out2]; cbn [snd] in *.
    intros Hin. apply in_app_or in Hin. tauto.
Qed.

End FeedRuns.

(** ** The constructor *)

(** Unfolds the constructor down to the tests on the files. *)
Ltac boot :=
  unfold Startup.BitcoinPaperTrader, Startup.init, Startup.load_data,
    Startup.load_history, Startup.save_data, Startup.save_history,
    Startup.json_load, Startup.try_except, Startup.bind, Startup.ret,
    Startup.lift, Startup.print, Startup.assign, Startup.attr, Startup.getattr;
  simpl.

Section Construction.

Local Open Scope float_scope.

Variable float_of_str : string -> option float.

(** The constructor on the files that [save_data] and [save_history] wrote. *)
Lemma construct_from_saved (e : env) (c : float) (d : saved_data) (h : list transaction) :
  let files := {| Startup.data_path := Some (Startup.Document (encode_data d));
                  Startup.history_path := Some (Startup.Document (encode_history h)) |} in
  Startup.BitcoinPaperTrader e c files =
    (Startup.Returns tt,
     {| Startup.starting_cash := c;
        Startup.starting_total := JFloat (saved_starting_total d);
        Startup.cash_balance := Some (JFloat (saved_cash_balance d));
        Startup.btc_balance := Some (JFloat (saved_btc_balance d));
        Startup.transaction_history := Some (encode_history h);
        Startup.files := files |},
     [Startup.LoadedData (JFloat (saved_cash_balance d)) (JFloat (saved_btc_balance d))]).
Proof. reflexivity. Qed.

Lemma construct_persisted (e : env) (c : float) (t : trader) :
  persisted t ->
  starting_cash t = c ->
  Startup.BitcoinPaperTrader e c (on_disk t) =
    (Startup.Returns tt, reflect t,
     [Startup.LoadedData (JFloat (cash_balance t)) (JFloat (btc_balance t))]).
Proof.
  intros [Hdata Hhistory] <-. unfold reflect, on_disk. rewrite Hdata, Hhistory.
  apply construct_from_saved.
Qed.

(** Restart: when both files hold what the trader holds, the constructor
    called with the same starting cash rebuilds it: the same balances, the
    same starting total and the same history, and the files stay as they
    are. *)
Theorem restart_restores (e : env) (t : trader) :
  persisted t ->
  Startup.BitcoinPaperTrader e (starting_cash t) (on_disk t) =
    (Startup.Returns tt, reflect t,
     [Startup.LoadedData (JFloat (cash_balance t)) (JFloat (btc_balance t))]).
Proof. intros Hsaved. now apply construct_persisted. Qed.

(** A session and a restart: after a session that starts with both files in
    step with the object and in which the files can be written, the
    constructor called with the same starting cash rebuilds the trader as
    the session left it. *)
Theorem session_survives_restart (e : env) (turns : list turn) (t : trader) :
  Forall writable turns ->
  persisted t ->
  let t' := state_after (main_loop float_of_str turns t) in
  Startup.BitcoinPaperTrader e (starting_cash t) (on_disk t') =
    (Startup.Returns tt, reflect t',
     [Startup.LoadedData (JFloat (cash_balance t')) (JFloat (btc_balance t'))]).
Proof.
  intros Hturns Hsaved t'. apply construct_persisted.
  - apply (@main_loop_preserves float_of_str persisted turns); [ | exact Hsaved].
    eapply Forall_impl; [ | exact Hturns].
    intros tn Htn. now apply dispatch_keeps_persisted.
  - apply (@main_loop_preserves float_of_str
             (baseline (starting_cash t) (starting_total t)) turns).
    + apply Forall_forall. intros tn _. apply dispatch_keeps_baseline.
    + split; reflexivity.
Qed.

(** Follows the tests of the constructor on the values it prints. *)
Ltac formats :=
  repeat match goal with
         | |- context [Startup.format_f ?v] =>
             destruct (Startup.format_f v) as [[] | ?] eqn:?; simpl
         | |- context [if ?b then _ else _] => destruct b eqn:?; simpl
         end.

Ltac boot_in H :=
  unfold Startup.BitcoinPaperTrader, Startup.init, Startup.load_data,
    Startup.load_history, Startup.save_data, Startup.save_history,
    Startup.json_load, Startup.try_except, Startup.bind, Startup.ret,
    Startup.lift, Startup.print, Startup.assign, Startup.attr, Startup.getattr in H;
  simpl in H.

Ltac formats_in H :=
  repeat match type of H with
         | context [Startup.format_f ?v] =>
             destruct (Startup.format_f v) as [[] | ?] eqn:?; simpl in H
         | context [if ?b then _ else _] => destruct b eqn:?; simpl in H
         end.

(** A data file that decodes to an object: each balance is the value under
    its key, whatever its type, or the default when the key is missing
    ([starting_cash], [0.0] and [starting_cash]).  When the cash and the
    asset balance so found can be printed as numbers, the constructor ends
    normally with these balances and leaves the data file as it is. *)
Theorem data_file_keys_or_defaults (e : env) (c : float)
    (items : list (string * json)) (past : option Startup.content) :
  let cash := value_or items "cash_balance" (JFloat c) in
  let held := value_or items "btc_balance" (JFloat 0) in
  let total := value_or items "starting_total" (JFloat c) in
  Startup.format_f cash = Startup.Returns tt ->
  Startup.format_f held = Startup.Returns tt ->
  exists o out,
    Startup.BitcoinPaperTrader e c
      {| Startup.data_path := Some (Startup.Document (JDict items));
         Startup.history_path := past |}
      = (Startup.Returns tt, o, Startup.LoadedData cash held :: out)
    /\ Startup.cash_balance o = Some cash
    /\ Startup.btc_balance o = Some held
    /\ Startup.starting_total o = total
    /\ Startup.data_path (Startup.files o) = Some (Startup.Document (JDict items)).
Proof.
  intros cash held total Hcash Hheld. boot. fold (value_or items "cash_balance" (JFloat c)).
  fold (value_or items "btc_balance" (JFloat 0)).
  fold (value_or items "starting_total" (JFloat c)).
  fold cash held total. rewrite Hcash, Hheld; simpl.
  destruct past as [[ | doc] | ]; simpl; formats;
    do 2 eexists; (split; [reflexivity | ]); repeat split.
Qed.



(** Constructing twice: from the files that a successful call of the
    constructor leaves, a second call with the same starting cash builds
    the same object and leaves the files as they are. *)
Theorem construction_is_idempotent (e : env) (c : float) (d : Startup.disk)
    (o : Startup.object) (out : list Startup.notice) :
  Startup.BitcoinPaperTrader e c d = (Startup.Returns tt, o, out) ->
  exists out',
    Startup.BitcoinPaperTrader e c (Startup.files o) = (Startup.Returns tt, o, out').
Proof.
  intros H. destruct d as [data past].
  destruct data as [[ | doc] | ];
    [ | destruct doc as [ | b | n | f | str | l | items] | ];
    destruct past as [[ | h] | ];
    boot_in H; formats_in H; try discriminate H;
    injection H as <- <-; boot;
    repeat (match goal with Heq : _ = _ |- _ => rewrite Heq end; simpl);
    eexists; reflexivity.
Qed.

End Construction.

(** ** The claims at concrete inputs *)

Section Examples.

Local Open Scope float_scope.

Import Sample.





(** A purchase for -5 USD, and one for a cent more than the cash held. *)
Lemma C3_witness :
  buy_btc float_of_str (at_price (Some 50000)) "-5" fresh
    = (Normal tt, fresh, [InvalidAmount])
  /\ buy_btc float_of_str (at_price (Some 50000)) "20000.01" fresh
       = (Normal tt, fresh, [InsufficientCash]).
Proof.
  split.
  - apply (@C3_buy_rejections float_of_str (at_price (Some 50000)) "-5" (-5) fresh);
      vm_compute; reflexivity.
  - apply (@C3_buy_rejections float_of_str (at_price (Some 50000)) "20000.01"
             20000.01 fresh); vm_compute; reflexivity.
Defined.

(** C4, as stated, fails for an asset balance of zero: [sell_btc] returns
    before it asks for the mode, so the report is NothingToSell although
    [100 / 50000 > 0]. *)
Lemma C4_counterexample :
  float_of_str "100" = Some 100
  /\ (0 <? 100) = true
  /\ latest_btc_price (at_price (Some 50000)) = Some 50000
  /\ (btc_balance fresh <? 100 / 50000) = true
  /\ sell_btc float_of_str (at_price (Some 50000)) "2" "100" fresh
       = (Normal tt, fresh, [NothingToSell]).
Proof. vm_compute. repeat split. Qed.

(** With 0.2 BTC held at the price 60000: a sale for 60000 USD is refused,
    a sale for 6000 USD is applied. *)
Lemma C4_witness :
  sell_btc float_of_str (at_price (Some 60000)) "2" "60000" holding
    = (Normal tt, holding, [InsufficientAsset])
  /\ exists t' out,
       sell_btc float_of_str (at_price (Some 60000)) "2" "6000" holding
         = (Normal tt, t', Sold (6000 / 60000) 60000 6000 :: out)
       /\ btc_balance t' = btc_balance holding - 6000 / 60000
       /\ cash_balance t' = cash_balance holding + 6000
       /\ transaction_history t' =
            transaction_history holding
              ++ [entry (at_price (Some 60000)) sell 6000 (6000 / 60000) 60000].
Proof.
  split.
  - apply (@C4_sell_amount float_of_str (at_price (Some 60000)) "60000" 60000 60000
             holding); vm_compute; reflexivity.
  - apply (@C4_sell_amount float_of_str (at_price (Some 60000)) "6000" 6000 60000
             holding); vm_compute; reflexivity.
Defined.

(** C5, as stated, fails when no price is available: the sale is refused and
    the asset balance stays at 0.2. *)
Lemma C5_counterexample :
  sell_btc float_of_str (at_price None) "1" "" holding
    = (Normal tt, holding, [PriceUnavailable])
  /\ (btc_balance holding =? 0) = false.
Proof. vm_compute. repeat split. Qed.

(** The scenario of the specification, continued: sell all at 60000. *)
Lemma C5_witness :
  exists t' out,
    sell_btc float_of_str (at_price (Some 60000)) "1" "" holding
      = (Normal tt, t', out)
    /\ btc_balance t' = 0
    /\ cash_balance t' = 22000.
Proof.
  destruct (@C5_sell_all float_of_str (at_price (Some 60000)) "" 60000 holding eq_refl)
    as (t' & out & Hrun & _ & _ & Hsold).
  destruct (Hsold eq_refl) as (Hbtc & Hcash & _).
  exists t', out. split; [exact Hrun | ]. split; [exact Hbtc | ].
  rewrite Hcash. vm_compute. reflexivity.
Defined.

(** C6, failing input: with the price [0.0] in the cell, a buy and a sale in
    amount mode of 100 USD raise [ZeroDivisionError] past the method, whose
    handler catches [ValueError] only. *)
Theorem C6_price_zero_raises :
  buy_btc float_of_str (at_price (Some 0)) "100" fresh
    = (Raised ZeroDivisionError, fresh, [])
  /\ sell_btc float_of_str (at_price (Some 0)) "2" "100" holding
       = (Raised ZeroDivisionError, holding, []).
Proof. vm_compute. split; reflexivity. Qed.

(** C7, as stated, fails for a tick whose price is a JSON number: it is no
    numeric string, yet it replaces the latest price.  (A second element
    that is no object, as in [[340, 7]], makes [TypeError] leave the
    handler.) *)
Lemma C7_counterexample :
  json_loads (text "[340, {'c': [65000.1, 0.5]}]") = Some numeric_tick
  /\ on_message float_of_str json_loads (text "[340, {'c': [65000.1, 0.5]}]") (Some 1)
       = (Normal tt, Some 65000.1, [])
  /\ on_message float_of_str json_loads "[340, 7]" (Some 1)
       = (Raised TypeError, Some 1, []).
Proof. vm_compute. repeat split. Qed.

(** The scenario of the specification: the quoted tick sets the price to
    65000.1, and a tick without the field ['c'] leaves it there. *)
Lemma C7_witness :
  on_message float_of_str json_loads (text "[340, {'c': ['65000.1', '0.5']}]") None
    = (Normal tt, Some 65000.1, [])
  /\ exists out,
       on_message float_of_str json_loads (text "[340, {'a': ['65000.1', '0.5']}]")
         (Some 65000.1)
       = (Normal tt, Some 65000.1, out).
Proof.
  split.
  - apply (proj1 (C7_feed_updates_or_discards float_of_str json_loads
                    (text "[340, {'c': ['65000.1', '0.5']}]") None) tick 65000.1).
    + vm_compute; reflexivity.
    + unfold tick.
      apply ticker with (c := JList [JStr "65000.1"; JStr "0.5"]) (x := JStr "65000.1").
      * reflexivity.
      * constructor.
      * vm_compute; reflexivity.
  - apply (proj2 (C7_feed_updates_or_discards float_of_str json_loads
                    (text "[340, {'a': ['65000.1', '0.5']}]") (Some 65000.1))).
    change (discarded float_of_str (Some tick_without_c)).
    apply field_missing. reflexivity.
Defined.

(** C9, failing input: the amount [nan] passes both checks of [buy_btc]
    (every comparison with NaN is false), so from 20000 USD and no asset at
    the price 50000 the purchase makes both balances NaN, which are not
    [>= 0]. *)
Theorem C9_nan_amount_breaks_nonnegativity :
  PyFloat.nonneg (cash_balance fresh) = true
  /\ PyFloat.nonneg (btc_balance fresh) = true
  /\ (0 <? 50000) = true
  /\ float_of_str "nan" = Some nan
  /\ completion_of (buy_btc float_of_str (at_price (Some 50000)) "nan" fresh) = Normal tt
  /\ PyFloat.nonneg
       (cash_balance (state_after (buy_btc float_of_str (at_price (Some 50000)) "nan" fresh)))
     = false
  /\ PyFloat.nonneg
       (btc_balance (state_after (buy_btc float_of_str (at_price (Some 50000)) "nan" fresh)))
     = false.
Proof. vm_compute. repeat split. Qed.



(** The quotient 10000 / 50000 and the product 0.2 * 60000 of the scenario. *)
Example quotient_of_the_scenario :
  (Qabs (Prim2Q (10000 / 50000) * Prim2Q 50000 - Prim2Q 10000)
   <= (1 # 4503599627370496) * (Prim2Q (10000 / 50000) * Prim2Q 50000))%Q.
Proof. apply (@div_relative_error 10000 50000); vm_compute; reflexivity. Qed.

Example product_of_the_scenario :
  (Qabs (Prim2Q 0.2 * Prim2Q 60000 - Prim2Q (0.2 * 60000))
   <= (1 # 4503599627370496) * Prim2Q (0.2 * 60000))%Q.
Proof. apply (@mul_relative_error 0.2 60000); vm_compute; reflexivity. Qed.

(** Purchases in the floating-point arithmetic of the program: at
    the price [5e-324] the asset amount recorded for 10000 USD is infinite,
    and so is the gap between its notional value and 10000; for [nan] USD
    the amounts recorded are NaN, for which no comparison holds. *)
Lemma notional_gap_unbounded :
  transaction_history
    (state_after (buy_btc float_of_str (at_price (Some 5e-324)) "10000" fresh))
  = [entry (at_price (Some 5e-324)) buy 10000 infinity 5e-324]
  /\ (forall tol, (tol <? infinity) = true ->
       within_tolerance tol (entry (at_price (Some 5e-324)) buy 10000 infinity 5e-324)
       = false)
  /\ transaction_history
       (state_after (buy_btc float_of_str (at_price (Some 50000)) "nan" fresh))
     = [entry (at_price (Some 50000)) buy nan nan 50000]
  /\ (forall tol,
       within_tolerance tol (entry (at_price (Some 50000)) buy nan nan 50000) = false).
Proof.
  split; [vm_compute; reflexivity | ].
  split; [ | split; [vm_compute; reflexivity | ] ].
  - intros tol Hfinite. unfold within_tolerance.
    change (notional_gap (entry (at_price (Some 5e-324)) buy 10000 infinity 5e-324))
      with infinity.
    now apply ltb_leb_false.
  - intros tol. unfold within_tolerance.
    change (notional_gap (entry (at_price (Some 50000)) buy nan nan 50000)) with nan.
    apply nan_leb.
Qed.

(** A sale of 6000 USD at 60000, a purchase of the same amount and a reset
    keep the balances of the sample trader non-negative. *)
Lemma nonnegative_balances_preserved_witness :
  balances_nonneg
    (state_after (buy_btc float_of_str (at_price (Some 60000)) "6000" holding))
  /\ balances_nonneg
       (state_after (sell_btc float_of_str (at_price (Some 60000)) "2" "6000" holding))
  /\ balances_nonneg (state_after (reset_trader (at_price (Some 60000)) "y" holding)).
Proof.
  apply (@nonnegative_balances_preserved float_of_str (at_price (Some 60000))
           "2" "6000" "y" 60000 holding).
  - split; vm_compute; reflexivity.
  - vm_compute; reflexivity.
  - vm_compute; reflexivity.
  - reflexivity.
  - vm_compute; reflexivity.
  - intros amount H. vm_compute in H. injection H as <-. vm_compute; reflexivity.
Defined.

(** The price [-0.0] compares equal to zero as well. *)
Lemma zero_price_raises_witness :
  buy_btc float_of_str (at_price (Some (-0))) "250" fresh
    = (Raised ZeroDivisionError, fresh, [])
  /\ sell_btc float_of_str (at_price (Some (-0))) "2" "250" holding
       = (Raised ZeroDivisionError, holding, []).
Proof.
  destruct (@zero_price_raises float_of_str (at_price (Some (-0))) "250" 250 (-0))
    with (t := fresh) as [Hbuy _]; try (vm_compute; reflexivity).
  destruct (@zero_price_raises float_of_str (at_price (Some (-0))) "250" 250 (-0))
    with (t := holding) as [_ Hsell]; try (vm_compute; reflexivity).
  split; [apply Hbuy | apply Hsell]; vm_compute; reflexivity.
Defined.

(** The input [nan] with 10000 USD and 0.2 BTC held. *)
Lemma nan_amount_accepted_witness :
  exists t' out,
    buy_btc float_of_str (at_price (Some 60000)) "nan" holding
      = (Normal tt, t', Bought nan 60000 nan :: out)
    /\ cash_balance t' = nan
    /\ btc_balance t' = nan
    /\ transaction_history t' =
         transaction_history holding ++ [entry (at_price (Some 60000)) buy nan nan 60000].
Proof.
  apply (@nan_amount_accepted float_of_str (at_price (Some 60000)) "nan" 60000 holding);
    vm_compute; reflexivity.
Defined.

(** An applied purchase is on disk; a refused one changes nothing. *)
Lemma write_through_witness :
  persisted (state_after (buy_btc float_of_str (at_price (Some 50000)) "10000" fresh))
  /\ state_after (buy_btc float_of_str (at_price (Some 50000)) "-5" fresh) = fresh.
Proof.
  split.
  - destruct (@write_through float_of_str (at_price (Some 50000)) "1" "10000" "y" fresh
                eq_refl eq_refl) as ([Hsame | Hsaved] & _ & _).
    + vm_compute in Hsame. discriminate.
    + exact Hsaved.
  - vm_compute. reflexivity.
Defined.

(** The sample session keeps what was recorded before it. *)
Lemma session_append_only_witness :
  extends (transaction_history opened)
    (state_after (main_loop float_of_str session opened)).
Proof.
  apply (@session_append_only float_of_str session opened).
  repeat constructor; intros H; discriminate.
Defined.

(** The sample session ends with both files holding 22000 USD, no asset and
    the two transactions. *)
Lemma session_write_through_witness :
  persisted (state_after (main_loop float_of_str session opened))
  /\ cash_balance (state_after (main_loop float_of_str session opened)) = 22000
  /\ List.length (transaction_history (state_after (main_loop float_of_str session opened)))
     = 2%nat.
Proof.
  split.
  - apply (@session_write_through float_of_str session opened).
    + repeat constructor.
    + split; reflexivity.
  - vm_compute. split; reflexivity.
Defined.

(** The scenario of the specification from end to end: 20000 USD, a purchase
    of 10000 USD at 50000 and then a sale of everything at 60000 leave
    22000 USD and no asset. *)
Example buy_then_sell_all :
  let bought := state_after (buy_btc float_of_str (at_price (Some 50000)) "10000" fresh) in
  let sold := state_after (sell_btc float_of_str (at_price (Some 60000)) "1" "" bought) in
  cash_balance bought = 10000 /\ btc_balance bought = 0.2
  /\ cash_balance sold = 22000 /\ btc_balance sold = 0
  /\ List.length (transaction_history sold) = 2%nat.
Proof. vm_compute. repeat split. Qed.


(** In the sample session the rounds before option 8 are all that is
    played, whatever follows it. *)
Lemma quit_ends_session_witness :
  main_loop float_of_str (session ++ stalled) opened
    = main_loop float_of_str session opened.
Proof.
  apply (@quit_ends_session float_of_str (firstn 4 session) stalled
           {| world := at_price (Some 60000); choice := "8";
              first_answer := ""; second_answer := "" |} opened).
  reflexivity.
Defined.

(** The sample session ends with the same balances and history on
    read-only files. *)
Lemma failed_writes_do_not_affect_trades_witness :
  in_memory (state_after (main_loop float_of_str session opened))
    = in_memory (state_after (main_loop float_of_str session_read_only opened))
  /\ data_file (state_after (main_loop float_of_str session_read_only opened))
       = data_file opened.
Proof.
  split.
  - apply (@failed_writes_do_not_affect_trades float_of_str session session_read_only
             opened opened).
    + repeat constructor.
    + reflexivity.
  - vm_compute. reflexivity.
Defined.


(** The 10000 USD bought at 50000 are sold back at 50000, and the 6000 USD
    sold at 60000 are bought back at 60000. *)
Lemma trade_can_be_undone_witness :
  (exists t2 out,
     sell_btc float_of_str (at_price (Some 50000)) "2" "10000"
       (state_after (buy_btc float_of_str (at_price (Some 50000)) "10000" fresh))
     = (Normal tt, t2, Sold (10000 / 50000) 50000 10000 :: out))
  /\ (exists t2 out,
        buy_btc float_of_str (at_price (Some 60000)) "6000"
          (state_after (sell_btc float_of_str (at_price (Some 60000)) "2" "6000" holding))
        = (Normal tt, t2, Bought (6000 / 60000) 60000 6000 :: out)).
Proof.
  split.
  - destruct (@trade_can_be_undone float_of_str (at_price (Some 50000))
                (at_price (Some 50000)) "10000" 10000 50000 fresh)
      as [Hback _]; try (vm_compute; reflexivity).
    apply Hback; vm_compute; reflexivity.
  - destruct (@trade_can_be_undone float_of_str (at_price (Some 60000))
                (at_price (Some 60000)) "6000" 6000 60000 holding)
      as [_ Hback]; try (vm_compute; reflexivity).
    apply Hback; vm_compute; reflexivity.
Defined.

(** A purchase and a sale of 6000 USD at 60000 with 10000 USD and 0.2 BTC
    held. *)
Lemma trades_move_balances_the_right_way_witness :
  let bought := state_after (buy_btc float_of_str (at_price (Some 60000)) "6000" holding) in
  let sold :=
    state_after (sell_btc float_of_str (at_price (Some 60000)) "2" "6000" holding) in
  (cash_balance bought <=? cash_balance holding) = true
  /\ (btc_balance holding <=? btc_balance bought) = true
  /\ (btc_balance sold <=? btc_balance holding) = true
  /\ (cash_balance holding <=? cash_balance sold) = true.
Proof.
  apply (@trades_move_balances_the_right_way float_of_str (at_price (Some 60000))
           "2" "6000" 60000 holding).
  - split; vm_compute; reflexivity.
  - vm_compute; reflexivity.
  - reflexivity.
  - vm_compute; reflexivity.
  - intros amount H. vm_compute in H. injection H as <-. vm_compute; reflexivity.
Defined.

(** With 0.2 BTC sold at 60000, a sale of 100 USD at 61000 finds nothing
    to sell. *)
Lemma nothing_to_sell_after_selling_all_witness :
  sell_btc float_of_str (at_price (Some 61000)) "2" "100"
    (state_after (sell_btc float_of_str (at_price (Some 60000)) "1" "" holding))
  = (Normal tt,
     state_after (sell_btc float_of_str (at_price (Some 60000)) "1" "" holding),
     [NothingToSell]).
Proof.
  apply (@nothing_to_sell_after_selling_all float_of_str (at_price (Some 60000))
           (at_price (Some 61000)) "2" "" "100" 60000 holding).
  reflexivity.
Defined.

(** A tick followed by a heartbeat and by a tick without the field ['c']:
    the price of the tick is the one that stays. *)
Lemma last_price_wins_witness :
  feed float_of_str json_loads
    (["[340, 7]"%string] ++ text "[340, {'c': ['65000.1', '0.5']}]"
       :: [text "{'event': 'heartbeat'}"; text "[340, {'a': ['65000.1', '0.5']}]"])
    (Some 1)
  = Some 65000.1.
Proof.
  apply (@last_price_wins float_of_str json_loads ["[340, 7]"%string]
           [text "{'event': 'heartbeat'}"; text "[340, {'a': ['65000.1', '0.5']}]"]
           (text "[340, {'c': ['65000.1', '0.5']}]") tick 65000.1 (Some 1)).
  - vm_compute; reflexivity.
  - unfold tick.
    apply ticker with (c := JList [JStr "65000.1"; JStr "0.5"]) (x := JStr "65000.1").
    + reflexivity.
    + constructor.
    + vm_compute; reflexivity.
  - repeat constructor; intros data p Hdata Hcarries;
      vm_compute in Hdata; injection Hdata as <-; inversion Hcarries; discriminate.
Defined.

(** The rounds [live]: a purchase and a valuation, both with a price. *)
Lemma price_never_unavailable_in_main_witness :
  fed float_of_str json_loads (Some 64000) live
  /\ ~ In PriceUnavailable (printed (main_loop float_of_str (map snd live) opened)).
Proof.
  assert (Hfed : fed float_of_str json_loads (Some 64000) live).
  { vm_compute. repeat split. }
  split; [exact Hfed | ].
  apply (@price_never_unavailable_in_main float_of_str json_loads live 64000 opened Hfed).
Defined.

(** The trader of a first run is rebuilt from its two files. *)
Lemma restart_restores_witness :
  Startup.BitcoinPaperTrader (at_price None) 20000 (on_disk opened)
    = (Startup.Returns tt, reflect opened,
       [Startup.LoadedData (JFloat 20000) (JFloat 0)]).
Proof.
  apply (@restart_restores (at_price None) opened). split; reflexivity.
Defined.

(** After the sample session a restart finds 22000 USD and no asset. *)
Lemma session_survives_restart_witness :
  Startup.BitcoinPaperTrader (at_price None) 20000
    (on_disk (state_after (main_loop float_of_str session opened)))
  = (Startup.Returns tt,
     reflect (state_after (main_loop float_of_str session opened)),
     [Startup.LoadedData (JFloat 22000) (JFloat 0)]).
Proof.
  apply (@session_survives_restart float_of_str (at_price None) session opened).
  - repeat constructor.
  - split; reflexivity.
Defined.

(** The data file edited by hand: the integer 150 becomes the cash balance
    as it is, and the two missing keys get their defaults. *)
Lemma data_file_keys_or_defaults_witness :
  exists o out,
    Startup.BitcoinPaperTrader (at_price None) 20000 hand_edited
      = (Startup.Returns tt, o, Startup.LoadedData (JInt 150) (JFloat 0) :: out)
    /\ Startup.cash_balance o = Some (JInt 150)
    /\ Startup.btc_balance o = Some (JFloat 0)
    /\ Startup.starting_total o = JFloat 20000
    /\ Startup.data_path (Startup.files o)
         = Some (Startup.Document (JDict [("cash_balance"%string, JInt 150)])).
Proof.
  apply (@data_file_keys_or_defaults (at_price None) 20000
           [("cash_balance"%string, JInt 150)] (Some Startup.Garbled));
    vm_compute; reflexivity.
Defined.



(** The files that a first run leaves rebuild the object of the first
    run. *)
Lemma construction_is_idempotent_witness :
  exists out,
    Startup.BitcoinPaperTrader (at_price None) 20000 (on_disk opened)
      = (Startup.Returns tt, reflect opened, out).
Proof.
  apply (@construction_is_idempotent (at_price None) 20000 no_files (reflect opened)
           [Startup.InitializedWith (JFloat 20000) (JFloat 0)]).
  reflexivity.
Defined.

End Examples.
